(** * GitHub Projects V2 MCP server: the tool layer of [server.py]

    A shallow embedding of the tool functions of
    [src/github_projects_mcp/server.py].  Every tool is an [async def] that
    awaits methods of the module-level [github_client] one after the other,
    formats the outcome as text, and turns client errors into text as well.

    The client ([github_client.py]) is an external collaborator of this
    file: it is a record of stateful, fallible methods over an arbitrary
    world type, and every statement below holds for every such client.
    A tool runs in a small monad that threads the client's world, records
    each client call that is made, and propagates Python exceptions.

    A Python [str] is represented by the bytes of its UTF-8 encoding:
    concatenation and equality are those of the byte strings, and an
    operation that counts characters counts code points. *)

From Stdlib Require Import String Ascii List ZArith Bool Lia DecimalString.
From Stdlib Require Import Floats.SpecFloat.
Import ListNotations.
Local Open Scope list_scope.
Local Open Scope string_scope.

Set Implicit Arguments.

(* ------------------------------------------------------------------ *)
(** ** Python values *)

Module Py.

(** The newline of the source's ["\n"]. *)
Definition nl : string := String (ascii_of_nat 10) EmptyString.

(** [str(n)] for an [int]. *)
Definition str_int (n : Z) : string := NilZero.string_of_int (Z.to_int n).

(** Truthiness of a [str]: the empty string is falsy. *)
Definition truthy_str (s : string) : bool :=
  match s with EmptyString => false | String _ _ => true end.

(** Truthiness of an [Optional[str]]: [None] and the empty string are falsy. *)
Definition truthy (o : option string) : bool :=
  match o with None => false | Some s => truthy_str s end.

(** Truthiness of a list or of a dict kept as an association list. *)
Definition nonempty {A : Type} (l : list A) : bool :=
  match l with [] => false | _ :: _ => true end.

(** Truthiness of an [Optional[List[...]]] or of [d.get(key)] on a dict. *)
Definition truthy_list {A : Type} (o : option (list A)) : bool :=
  match o with None => false | Some l => nonempty l end.

(** An [Optional] value inside an f-string: [None] prints as [None]. *)
Definition fmt_opt (o : option string) : string :=
  match o with None => "None" | Some s => s end.

Definition fmt_opt_int (o : option Z) : string :=
  match o with None => "None" | Some n => str_int n end.

(** A byte [10xxxxxx], which continues the code point begun before it. *)
Definition is_continuation (c : ascii) : bool :=
  match c with
  | Ascii _ _ _ _ _ _ b6 b7 => b7 && negb b6
  end.

(** [len(s)]: the number of code points, one per byte that starts one. *)
Fixpoint code_points (s : string) : nat :=
  match s with
  | EmptyString => 0
  | String c rest =>
      if is_continuation c then code_points rest else S (code_points rest)
  end.

(** [s[:n]]: the first [n] code points, each with its continuation bytes. *)
Fixpoint slice_to (n : nat) (s : string) : string :=
  match s with
  | EmptyString => EmptyString
  | String c rest =>
      if is_continuation c then String c (slice_to n rest)
      else match n with
           | O => EmptyString
           | S n' => String c (slice_to n' rest)
           end
  end.

(** [sep.join(parts)]. *)
Definition join (sep : string) (parts : list string) : string :=
  String.concat sep parts.

(** A Python [float] is an IEEE 754 binary64 value. *)
Definition float := spec_float.

(** [x.is_integer()]: finite and without fractional part. *)
Definition is_integer (x : float) : bool :=
  match x with
  | S754_zero _ => true
  | S754_infinity _ => false
  | S754_nan => false
  | S754_finite _ m e =>
      if (0 <=? e)%Z then true
      else (Z.pos m mod 2 ^ (- e) =? 0)%Z
  end.

(** [int(x)] for a finite [x]: truncation towards zero. *)
Definition int_of_float (x : float) : Z :=
  match x with
  | S754_finite s m e =>
      let a := if (0 <=? e)%Z then (Z.pos m * 2 ^ e)%Z
               else (Z.pos m / 2 ^ (- e))%Z in
      if s then (- a)%Z else a
  | _ => 0%Z
  end.

(** The mantissa of a finite float with its sign. *)
Definition signed_mantissa (s : bool) (m : positive) : Z :=
  if s then Z.neg m else Z.pos m.

(** The float [x] has the value of the integer [n]: for a finite float
    with mantissa [m] and exponent [e], [n = m * 2 ^ e], written without
    fractions. *)
Definition float_equals_int (x : float) (n : Z) : Prop :=
  match x with
  | S754_zero _ => n = 0%Z
  | S754_infinity _ => False
  | S754_nan => False
  | S754_finite s m e =>
      (n * 2 ^ Z.max 0 (- e) = signed_mantissa s m * 2 ^ Z.max 0 e)%Z
  end.

(** The scalars a tool hands to the client as a field value. *)
Inductive value : Type :=
| VStr (s : string)
| VInt (n : Z)
| VFloat (x : float).

(** Exceptions, each with its [str(e)].  [GitHubClientError] is the
    client's own error class, [OtherException] any other subclass of
    [Exception] ([KeyError], [TypeError], ...), [BaseExceptionOnly] one
    that [except Exception] does not catch. *)
Inductive exn : Type :=
| GitHubClientError (msg : string)
| ValueError (msg : string)
| OtherException (msg : string)
| BaseExceptionOnly (msg : string).

Definition exn_msg (e : exn) : string :=
  match e with
  | GitHubClientError m | ValueError m
  | OtherException m | BaseExceptionOnly m => m
  end.

(** [except GitHubClientError]. *)
Definition is_client_error (e : exn) : bool :=
  match e with GitHubClientError _ => true | _ => false end.

(** [except (GitHubClientError, ValueError)]. *)
Definition is_client_or_value_error (e : exn) : bool :=
  match e with GitHubClientError _ | ValueError _ => true | _ => false end.

(** [except Exception]. *)
Definition is_exception (e : exn) : bool :=
  match e with BaseExceptionOnly _ => false | _ => true end.

(** The outcome of evaluating an expression: a value, or a raised
    exception. *)
Inductive outcome (A : Type) : Type :=
| Ok (a : A)
| Raise (e : exn).
Arguments Raise {A} e.

(** The exception an outcome raised, if it raised one. *)
Definition raised_of {A : Type} (o : outcome A) : option exn :=
  match o with
  | Ok _ => None
  | Raise e => Some e
  end.

End Py.
Import Py.

(* ------------------------------------------------------------------ *)
(** ** The data the client returns

    The dicts of the source become records.  A key the source reads with
    [d.get(key)] is an [option] field ([None]: the key is absent); reading
    such a key with [d[key]] raises [KeyError] when it is absent. *)

Record Project : Type := {
  proj_id : string;
  proj_number : Z;
  proj_title : string;
  proj_url : string
}.

(** One entry of [get_project_fields_details]: [id], [type], and for
    single-select and iteration fields the mapping from option or iteration
    name to its identifier, in the dict's iteration order. *)
Record FieldDetails : Type := {
  fd_id : option string;
  fd_type : option string;
  fd_options : option (list (string * string));
  fd_iterations : option (list (string * string))
}.

(** The truthiness of a field's dict: false for the empty dict. *)
Definition fd_truthy (d : FieldDetails) : bool :=
  match fd_id d, fd_type d, fd_options d, fd_iterations d with
  | None, None, None, None => false
  | _, _, _, _ => true
  end.

(** The [owner] dict of a repository. *)
Record Owner : Type := {
  owner_login : option string
}.

(** The [repository] dict of an item's content; [repo_other_keys] says
    whether the dict has keys besides [owner] and [name]. *)
Record Repository : Type := {
  repo_owner : option Owner;
  repo_name : option string;
  repo_other_keys : bool
}.

(** The truthiness of a repository's dict: false for the empty dict. *)
Definition repo_truthy (r : Repository) : bool :=
  match repo_owner r, repo_name r with
  | None, None => repo_other_keys r
  | _, _ => true
  end.

(** The [content] of a project item: an issue, a pull request or a draft
    issue, told apart by [__typename]. *)
Record Content : Type := {
  c_typename : option string;
  c_number : option Z;
  c_title : option string;
  c_state : option string;
  c_url : option string;
  c_id : option string;
  c_body : option string;
  c_repository : option Repository
}.

(** The empty dict that stands in for a missing [content]. *)
Definition empty_content : Content :=
  {| c_typename := None; c_number := None; c_title := None; c_state := None;
     c_url := None; c_id := None; c_body := None; c_repository := None |}.

(** A normalised field value of an item: a scalar, or the label names. *)
Inductive DisplayValue : Type :=
| DScalar (v : value)
| DLabels (names : list string).

Record Item : Type := {
  it_id : string;
  it_content : option Content;
  it_fieldValues : option (list (string * DisplayValue))
}.

Record PageInfo : Type := {
  hasNextPage : option bool;
  endCursor : option string
}.

Record ItemsPage : Type := {
  page_items : list Item;
  page_pageInfo : PageInfo
}.

(** What [create_issue] returns; [iss_assignees] holds the logins of
    [issue['assignees']['nodes']]. *)
Record Issue : Type := {
  iss_number : option Z;
  iss_title : option string;
  iss_url : option string;
  iss_assignees : option (list string)
}.

(** What [add_issue_to_project] and [add_draft_issue_to_project] return. *)
Record ProjectItem : Type := {
  pi_id : option string
}.

(* ------------------------------------------------------------------ *)
(** ** Library functions of Python the tools call

    [str.lower], [str.upper], the [repr] of a list of strings (what an
    f-string prints for [list(d.keys())]), [float(s)] on a string ([None]:
    it raises [ValueError]), [str(x)] on a float and [json.dumps] on an
    item's content.  They are not code of this repository; the statements
    hold for every choice of them. *)

Class PyBuiltins : Type := {
  str_lower : string -> string;
  str_upper : string -> string;
  repr_str_list : list string -> string;
  float_of_str : string -> option float;
  str_float : float -> string;
  json_dumps : Content -> string
}.

(** [str(v)] for a scalar and for a normalised field value. *)
Definition str_value `{PyBuiltins} (v : value) : string :=
  match v with
  | VStr s => s
  | VInt n => str_int n
  | VFloat x => str_float x
  end.

Definition str_display `{PyBuiltins} (v : DisplayValue) : string :=
  match v with
  | DScalar s => str_value s
  | DLabels names => repr_str_list names
  end.

(* ------------------------------------------------------------------ *)
(** ** The client and the calls made to it *)

(** A call of a client method, with the arguments the tool passed. *)
Inductive call : Type :=
| CGetProjects (owner : string)
| CGetProjectFieldsDetails (owner : string) (project_number : Z)
| CGetProjectItems (owner : string) (project_number limit : Z)
    (state filter_field_name filter_field_value cursor : option string)
| CCreateIssue (owner repo title body : string)
    (assignees : option (list string))
| CAddIssueToProject (owner : string) (project_number : Z)
    (issue_owner issue_repo : string) (issue_number : option Z)
| CSetProjectItemDates (owner : string) (project_number : Z)
    (item_id : string) (start_date end_date : option string)
    (start_field_name end_field_name : string)
| CUpdateProjectItemField (owner : string) (project_number : Z)
    (item_id field_id : string) (field_value : value)
| CAddDraftIssueToProject (owner : string) (project_number : Z)
    (title body : string) (assignees : option (list string))
| CDeleteProjectItem (owner : string) (project_number : Z) (item_id : string).

(** A call that was made, and the exception it raised if it raised one. *)
Record event : Type := {
  ev_call : call;
  ev_raised : option exn
}.

(** The methods of [GitHubClient] the tools use.  Each one may change the
    world (the remote project, the connection) and returns or raises. *)
Module Client.
Record t (W : Type) : Type := {
  get_projects : string -> W -> outcome (list Project) * W;
  get_project_fields_details :
    string -> Z -> W -> outcome (list (string * FieldDetails)) * W;
  get_project_items :
    string -> Z -> Z -> option string -> option string -> option string ->
    option string -> W -> outcome ItemsPage * W;
  create_issue :
    string -> string -> string -> string -> option (list string) ->
    W -> outcome Issue * W;
  add_issue_to_project :
    string -> Z -> string -> string -> option Z ->
    W -> outcome ProjectItem * W;
  set_project_item_dates :
    string -> Z -> string -> option string -> option string ->
    string -> string -> W -> outcome (list (string * string)) * W;
  update_project_item_field :
    string -> Z -> string -> string -> value -> W -> outcome unit * W;
  add_draft_issue_to_project :
    string -> Z -> string -> string -> option (list string) ->
    W -> outcome ProjectItem * W;
  delete_project_item :
    string -> Z -> string -> W -> outcome string * W
}.
End Client.

(* ------------------------------------------------------------------ *)
(** ** The monad of a tool run

    A computation takes the client's world and gives an outcome, the new
    world, and the client calls it made, oldest first. *)

Definition M (W A : Type) : Type := W -> outcome A * W * list event.

Definition ret {W A : Type} (a : A) : M W A := fun w => (Ok a, w, []).

Definition raise {W A : Type} (e : exn) : M W A := fun w => (Raise e, w, []).

Definition bind {W A B : Type} (m : M W A) (k : A -> M W B) : M W B :=
  fun w =>
    match m w with
    | (Ok a, w1, t1) =>
        match k a w1 with (r, w2, t2) => (r, w2, (t1 ++ t2)%list) end
    | (Raise e, w1, t1) => (Raise e, w1, t1)
    end.

Notation "x <- m ;; k" := (bind m (fun x => k))
  (at level 61, m at next level, right associativity).

(** [try: body / except <classes> as e: handler e].  An exception outside
    [classes] propagates. *)
Definition try_except {W A : Type} (body : M W A) (classes : exn -> bool)
    (handler : exn -> M W A) : M W A :=
  fun w =>
    match body w with
    | (Ok a, w1, t1) => (Ok a, w1, t1)
    | (Raise e, w1, t1) =>
        if classes e
        then match handler e w1 with (r, w2, t2) => (r, w2, (t1 ++ t2)%list) end
        else (Raise e, w1, t1)
    end.

(** [await github_client.method(args)]: the call is recorded together with
    the exception it raised, if any. *)
Definition await {W A : Type} (c : call) (method : W -> outcome A * W)
    : M W A :=
  fun w =>
    match method w with
    | (Ok a, w1) => (Ok a, w1, [{| ev_call := c; ev_raised := None |}])
    | (Raise e, w1) => (Raise e, w1, [{| ev_call := c; ev_raised := Some e |}])
    end.

(** [d[key]] on a key that may be absent. *)
Definition getitem {W A : Type} (key : string) (o : option A) : M W A :=
  match o with
  | Some a => ret a
  | None => raise (OtherException ("'" ++ key ++ "'"))
  end.

(** A [for] loop that extends a string and may raise. *)
Fixpoint for_each {W A : Type} (l : list A)
    (body : string -> A -> M W string) (acc : string) : M W string :=
  match l with
  | [] => ret acc
  | x :: rest => acc1 <- body acc x ;; for_each rest body acc1
  end.

(* ------------------------------------------------------------------ *)
(** ** The tools *)

Section Server.

Context {B : PyBuiltins} {W : Type}.

(** The module-level [github_client]. *)
Variable github_client : Client.t W.

(** [o == s] for an optional string [o]. *)
Definition opt_eqb (o : option string) (s : string) : bool :=
  match o with Some x => String.eqb x s | None => false end.

(** [d.get(key, default)]. *)
Definition get_default {A : Type} (o : option A) (default : A) : A :=
  match o with Some a => a | None => default end.

(** The lines ["  - {k}: {v}"] joined by newlines, used for date updates. *)
Definition date_lines (updates : list (string * string)) : string :=
  join nl (map (fun kv => "  - " ++ fst kv ++ ": " ++ snd kv) updates).

Definition list_projects (owner : string) : M W string :=
  try_except
    (projects <- await (CGetProjects owner)
                   (Client.get_projects github_client owner) ;;
     if negb (nonempty projects)
     then ret ("No projects found for " ++ owner)
     else
       ret (fold_left
              (fun result project =>
                 result
                 ++ "- ID: " ++ proj_id project ++ nl
                 ++ "  Number: " ++ str_int (proj_number project) ++ nl
                 ++ "  Title: " ++ proj_title project ++ nl
                 ++ "  URL: " ++ proj_url project ++ nl
                 ++ nl)
              projects
              ("Projects for " ++ owner ++ ":" ++ nl ++ nl)))
    is_client_error
    (fun e =>
       ret ("Error: Could not list projects for " ++ owner
            ++ ". Details: " ++ exn_msg e)).

(** The text for one field, appended to [result] (the body of the
    [for field_name, details in fields_details.items()] loop). *)
Definition format_field (result : string) (entry : string * FieldDetails)
    : M W string :=
  let field_name := fst entry in
  let details := snd entry in
  let result := result ++ "- Name: " ++ field_name ++ nl in
  id <- getitem "id" (fd_id details) ;;
  let result := result ++ "  ID: " ++ id ++ nl in
  type <- getitem "type" (fd_type details) ;;
  let result := result ++ "  Type: " ++ type ++ nl in
  let result :=
    if String.eqb type "ProjectV2SingleSelectField"
       && truthy_list (fd_options details)
    then
      fold_left
        (fun result opt =>
           result ++ "    - " ++ fst opt ++ ": " ++ snd opt ++ nl)
        (get_default (fd_options details) [])
        (result ++ "  Options (Name: ID):" ++ nl)
    else result in
  ret (result ++ nl).

Definition get_project_fields (owner : string) (project_number : Z)
    : M W string :=
  try_except
    (fields_details <-
       await (CGetProjectFieldsDetails owner project_number)
         (Client.get_project_fields_details github_client
            owner project_number) ;;
     if negb (nonempty fields_details)
     then ret ("No fields found for project #" ++ str_int project_number
               ++ " in " ++ owner)
     else
       for_each fields_details format_field
         ("Fields for project #" ++ str_int project_number ++ " in "
          ++ owner ++ ":" ++ nl ++ nl))
    is_client_error
    (fun e =>
       ret ("Error: Could not get fields for project " ++ owner ++ "/"
            ++ str_int project_number ++ ". Details: " ++ exn_msg e)).

(** The loop of [get_project_items] that looks a field up by name: the
    first entry, in the dict's order, whose lowered name equals the
    lowered filter name ([break] on the first hit). *)
Fixpoint find_field (fields_details : list (string * FieldDetails))
    (filter_field_name : string) : option FieldDetails :=
  match fields_details with
  | [] => None
  | (fname, finfo) :: rest =>
      if String.eqb (str_lower fname) (str_lower filter_field_name)
      then Some finfo
      else find_field rest filter_field_name
  end.

(** The two closing lines of the debug text. *)
Definition debug_note (limit : Z) (filter_field_value : string) : string :=
  "- Note: Searched up to " ++ str_int limit
  ++ " items. If the project has many items, some '" ++ filter_field_value
  ++ "' items might be beyond this scope." ++ nl
  ++ "- Tip: Try increasing the limit parameter or check if the field value spelling is correct.".

(** The inner [try] of [get_project_items], entered when a custom-field
    filter found nothing on a first page.  [Some text]: the block
    returned [text]; [None]: it fell through, also after an exception,
    which [except Exception] only logs. *)
Definition zero_match_debug (owner : string) (project_number limit : Z)
    (filter_field_name filter_field_value filter_desc : string)
    : M W (option string) :=
  try_except
    (fields_details <-
       await (CGetProjectFieldsDetails owner project_number)
         (Client.get_project_fields_details github_client
            owner project_number) ;;
     match find_field fields_details filter_field_name with
     | None => ret None
     | Some field_info =>
         if fd_truthy field_info then
           let field_type := get_default (fd_type field_info) "Unknown" in
           if String.eqb field_type "ProjectV2SingleSelectField" then
             let available_options :=
               map fst (get_default (fd_options field_info) []) in
             ret (Some
               ("No items found in project #" ++ str_int project_number
                ++ " for " ++ owner ++ filter_desc ++ nl ++ nl
                ++ "Debug info:" ++ nl
                ++ "- Found field '" ++ filter_field_name
                ++ "' with type '" ++ field_type ++ "'" ++ nl
                ++ "- Available options: "
                ++ repr_str_list available_options ++ nl
                ++ debug_note limit filter_field_value))
           else if String.eqb field_type "ProjectV2IterationField" then
             let available_iterations :=
               map fst (get_default (fd_iterations field_info) []) in
             ret (Some
               ("No items found in project #" ++ str_int project_number
                ++ " for " ++ owner ++ filter_desc ++ nl ++ nl
                ++ "Debug info:" ++ nl
                ++ "- Found field '" ++ filter_field_name
                ++ "' with type '" ++ field_type ++ "'" ++ nl
                ++ "- Available iterations: "
                ++ repr_str_list available_iterations ++ nl
                ++ debug_note limit filter_field_value))
           else ret None
         else ret None
     end)
    is_exception
    (fun _ => ret None).

(** The text for one item, appended to [result] (the body of the
    [for item in items] loop). *)
Definition format_item (result : string) (item : Item) : string :=
  let content := get_default (it_content item) empty_content in
  let result := result ++ "- Item ID: " ++ it_id item ++ nl in
  let item_type := c_typename content in
  let repo_str :=
    match c_repository content with
    | Some repo_info =>
        if repo_truthy repo_info
        then fmt_opt (match repo_owner repo_info with
                      | Some owner => owner_login owner
                      | None => None
                      end)
             ++ "/" ++ fmt_opt (repo_name repo_info)
        else "N/A"
    | None => "N/A"
    end in
  let result :=
    if opt_eqb item_type "Issue" then
      result
      ++ "  Type: Issue #" ++ fmt_opt_int (c_number content)
      ++ " (" ++ repo_str ++ ")" ++ nl
      ++ "  Title: " ++ fmt_opt (c_title content) ++ nl
      ++ "  State: " ++ fmt_opt (c_state content) ++ nl
      ++ "  URL: " ++ fmt_opt (c_url content) ++ nl
    else if opt_eqb item_type "PullRequest" then
      result
      ++ "  Type: PR #" ++ fmt_opt_int (c_number content)
      ++ " (" ++ repo_str ++ ")" ++ nl
      ++ "  Title: " ++ fmt_opt (c_title content) ++ nl
      ++ "  State: " ++ fmt_opt (c_state content) ++ nl
      ++ "  URL: " ++ fmt_opt (c_url content) ++ nl
    else if opt_eqb item_type "DraftIssue" then
      let body := get_default (c_body content) EmptyString in
      let result :=
        result
        ++ "  Type: Draft Issue ID: " ++ fmt_opt (c_id content) ++ nl
        ++ "  Title: " ++ fmt_opt (c_title content) ++ nl in
      if truthy_str body
      then result ++ "  Body: " ++ slice_to 100 body ++ "..." ++ nl
      else result
    else
      result
      ++ "  Type: "
      ++ (if truthy item_type then fmt_opt item_type else "Unknown") ++ nl
      ++ "  Content: " ++ json_dumps content ++ nl in
  let result :=
    if truthy_list (it_fieldValues item) then
      fold_left
        (fun result fv =>
           result ++ "    - " ++ fst fv ++ ": " ++ str_display (snd fv) ++ nl)
        (get_default (it_fieldValues item) [])
        (result ++ "  Field Values:" ++ nl)
    else result in
  result ++ nl.

(** The text appended when another page is available. *)
Definition pagination_info (end_cursor : string) : string :=
  nl ++ "--- Pagination ---" ++ nl
  ++ "More items available: Yes" ++ nl
  ++ "Next page cursor: " ++ end_cursor ++ nl
  ++ "To get the next page, use the cursor parameter:" ++ nl
  ++ "cursor: " ++ end_cursor ++ nl.

(** The description of the active filter that every text of
    [get_project_items] carries. *)
Definition filter_desc_of (state filter_field_name filter_field_value
    : option string) : string :=
  if truthy state then " (State: " ++ str_upper (fmt_opt state) ++ ")"
  else if truthy filter_field_name && truthy filter_field_value
  then " (Filter: " ++ fmt_opt filter_field_name ++ " = '"
       ++ fmt_opt filter_field_value ++ "')"
  else EmptyString.

(** The last [return] of the zero-items branch. *)
Definition no_items_text (owner : string) (project_number : Z)
    (filter_desc : string) : string :=
  "No items found in project #" ++ str_int project_number ++ " for "
  ++ owner ++ filter_desc ++ nl ++ nl
  ++ "Note: If the project has many items, try increasing the limit parameter to search more thoroughly.".

Definition get_project_items (owner : string) (project_number limit : Z)
    (state filter_field_name filter_field_value cursor : option string)
    : M W string :=
  if truthy state && truthy filter_field_name
  then ret "Error: Cannot filter by both 'state' and a custom field ('filter_field_name') simultaneously."
  else
    try_except
      (result <-
         await (CGetProjectItems owner project_number limit state
                  filter_field_name filter_field_value cursor)
           (Client.get_project_items github_client owner project_number
              limit state filter_field_name filter_field_value cursor) ;;
       let items := page_items result in
       let page_info := page_pageInfo result in
       let has_next_page := get_default (hasNextPage page_info) false in
       let end_cursor := endCursor page_info in
       let filter_desc :=
         filter_desc_of state filter_field_name filter_field_value in
       let pagination_desc :=
         if truthy cursor then " (continued)" else EmptyString in
       if negb (nonempty items) then
         if truthy cursor then
           ret ("No more items found in project #" ++ str_int project_number
                ++ " for " ++ owner ++ filter_desc)
         else
           returned <-
             (if truthy filter_field_name && truthy filter_field_value
              then zero_match_debug owner project_number limit
                     (fmt_opt filter_field_name)
                     (fmt_opt filter_field_value) filter_desc
              else ret None) ;;
           match returned with
           | Some text => ret text
           | None => ret (no_items_text owner project_number filter_desc)
           end
       else
         let result :=
           fold_left format_item items
             ("Items in project #" ++ str_int project_number ++ " for "
              ++ owner ++ filter_desc ++ pagination_desc ++ ":" ++ nl ++ nl) in
         let result :=
           if has_next_page && truthy end_cursor
           then result ++ pagination_info (fmt_opt end_cursor)
           else result in
         ret result)
      is_client_or_value_error
      (fun e =>
         ret ("Error: Could not get items for project " ++ owner ++ "/"
              ++ str_int project_number ++ ". Details: " ++ exn_msg e)).

(** The [Assignees:] line of a created issue. *)
Definition assignees_info_of (assignees : option (list string))
    (issue : Issue) : string :=
  if truthy_list assignees && truthy_list (iss_assignees issue)
  then "Assignees: "
       ++ join ", " (get_default (iss_assignees issue) []) ++ nl
  else EmptyString.

Definition create_issue (owner repo title body : string)
    (assignees : option (list string)) : M W string :=
  try_except
    (issue <- await (CCreateIssue owner repo title body assignees)
                (Client.create_issue github_client
                   owner repo title body assignees) ;;
     let assignees_info := assignees_info_of assignees issue in
     number <- getitem "number" (iss_number issue) ;;
     issue_title <- getitem "title" (iss_title issue) ;;
     url <- getitem "url" (iss_url issue) ;;
     ret ("Issue created successfully!" ++ nl ++ nl
          ++ "Repository: " ++ owner ++ "/" ++ repo ++ nl
          ++ "Issue Number: #" ++ str_int number ++ nl
          ++ "Title: " ++ issue_title ++ nl
          ++ assignees_info
          ++ "URL: " ++ url ++ nl))
    is_client_error
    (fun e =>
       ret ("Error: Could not create issue in " ++ owner ++ "/" ++ repo
            ++ ". Details: " ++ exn_msg e)).

Definition add_issue_to_project (owner : string) (project_number : Z)
    (issue_owner issue_repo : string) (issue_number : Z) : M W string :=
  try_except
    (result <-
       await (CAddIssueToProject owner project_number issue_owner
                issue_repo (Some issue_number))
         (Client.add_issue_to_project github_client owner project_number
            issue_owner issue_repo (Some issue_number)) ;;
     id <- getitem "id" (pi_id result) ;;
     ret ("Successfully added issue " ++ issue_owner ++ "/" ++ issue_repo
          ++ "#" ++ str_int issue_number ++ " to project #"
          ++ str_int project_number ++ "!" ++ nl
          ++ "Item ID: " ++ id))
    is_client_error
    (fun e =>
       ret ("Error: Could not add issue to project. Details: " ++ exn_msg e)).

Definition set_project_item_dates (owner : string) (project_number : Z)
    (item_id : string) (start_date end_date : option string)
    (start_field_name end_field_name : string) : M W string :=
  if negb (truthy start_date || truthy end_date)
  then ret "Error: Provide at least one of start_date or end_date"
  else
    try_except
      (updates <-
         await (CSetProjectItemDates owner project_number item_id
                  start_date end_date start_field_name end_field_name)
           (Client.set_project_item_dates github_client owner
              project_number item_id start_date end_date
              start_field_name end_field_name) ;;
       if negb (nonempty updates)
       then ret "No date fields were updated (fields may be missing)."
       else
         ret ("Successfully updated date fields for item " ++ item_id
              ++ " in project #" ++ str_int project_number ++ ":" ++ nl
              ++ date_lines updates))
      is_client_or_value_error
      (fun e => ret ("Error: Could not set dates. Details: " ++ exn_msg e)).

(** The date step that both composed tools run after a successful add:
    it computes [date_msg].  The client is called only when the new item
    has an id and a date was given; its client and validation errors
    become a warning that starts with [failed]. *)
Definition set_dates_step (owner : string) (project_number : Z)
    (item_id start_date end_date : option string)
    (start_field_name end_field_name failed : string) : M W string :=
  if truthy item_id && (truthy start_date || truthy end_date) then
    try_except
      (updates <-
         await (CSetProjectItemDates owner project_number (fmt_opt item_id)
                  start_date end_date start_field_name end_field_name)
           (Client.set_project_item_dates github_client owner
              project_number (fmt_opt item_id) start_date end_date
              start_field_name end_field_name) ;;
       if nonempty updates
       then ret (nl ++ "Dates set:" ++ nl ++ date_lines updates)
       else ret (nl ++ "Warning: No date fields updated (fields may not exist)."))
      is_client_or_value_error
      (fun e => ret (nl ++ failed ++ exn_msg e))
  else ret EmptyString.

Definition add_issue_to_project_with_dates (owner : string)
    (project_number : Z) (issue_owner issue_repo : string)
    (issue_number : Z) (start_date end_date : option string)
    (start_field_name end_field_name : string) : M W string :=
  try_except
    (item <-
       await (CAddIssueToProject owner project_number issue_owner
                issue_repo (Some issue_number))
         (Client.add_issue_to_project github_client owner project_number
            issue_owner issue_repo (Some issue_number)) ;;
     let item_id := pi_id item in
     date_msg <-
       set_dates_step owner project_number item_id start_date end_date
         start_field_name end_field_name
         "Warning: Issue added but failed to set dates: " ;;
     ret ("Successfully added issue " ++ issue_owner ++ "/" ++ issue_repo
          ++ "#" ++ str_int issue_number ++ " to project #"
          ++ str_int project_number ++ "!" ++ nl
          ++ "Item ID: " ++ fmt_opt item_id ++ date_msg))
    is_client_error
    (fun e =>
       ret ("Error: Could not add issue or set dates. Details: "
            ++ exn_msg e)).

Definition create_issue_and_add_to_project (owner repo : string)
    (project_number : Z) (title body : string)
    (assignees : option (list string)) (start_date end_date : option string)
    (start_field_name end_field_name : string) : M W string :=
  try_except
    (issue <- await (CCreateIssue owner repo title body assignees)
                (Client.create_issue github_client
                   owner repo title body assignees) ;;
     let issue_number := iss_number issue in
     item <-
       await (CAddIssueToProject owner project_number owner repo
                issue_number)
         (Client.add_issue_to_project github_client owner project_number
            owner repo issue_number) ;;
     let item_id := pi_id item in
     date_msg <-
       set_dates_step owner project_number item_id start_date end_date
         start_field_name end_field_name
         "Warning: Issue created and added but failed to set dates: " ;;
     let assignees_info := assignees_info_of assignees issue in
     ret ("Issue created and added to project successfully!" ++ nl ++ nl
          ++ "Repository: " ++ owner ++ "/" ++ repo ++ nl
          ++ "Issue Number: #" ++ fmt_opt_int issue_number ++ nl
          ++ "Title: " ++ fmt_opt (iss_title issue) ++ nl
          ++ "URL: " ++ fmt_opt (iss_url issue) ++ nl
          ++ "Project Item ID: " ++ fmt_opt item_id ++ date_msg ++ nl
          ++ assignees_info))
    is_client_error
    (fun e =>
       ret ("Error: Could not create/add issue or set dates. Details: "
            ++ exn_msg e)).

(** The type inference of [update_project_item_field]: [float(s)], made
    an [int] when it has no fractional part; the string itself when
    [float] raises [ValueError]. *)
Definition parsed_value (field_value : string) : value :=
  match float_of_str field_value with
  | Some x => if is_integer x then VInt (int_of_float x) else VFloat x
  | None => VStr field_value
  end.

Definition update_project_item_field (owner : string) (project_number : Z)
    (item_id field_id field_value : string) : M W string :=
  try_except
    (_ <- await (CUpdateProjectItemField owner project_number item_id
                   field_id (parsed_value field_value))
            (Client.update_project_item_field github_client owner
               project_number item_id field_id (parsed_value field_value)) ;;
     ret ("Successfully updated field for item in project #"
          ++ str_int project_number ++ "!" ++ nl
          ++ "Item ID: " ++ item_id ++ nl
          ++ "Field ID: " ++ field_id ++ nl
          ++ "Value Set: " ++ field_value))
    is_client_error
    (fun e =>
       ret ("Error: Could not update field value. Details: " ++ exn_msg e)).

Definition create_draft_issue (owner : string) (project_number : Z)
    (title body : string) (assignees : option (list string)) : M W string :=
  try_except
    (result <-
       await (CAddDraftIssueToProject owner project_number title body
                assignees)
         (Client.add_draft_issue_to_project github_client owner
            project_number title body assignees) ;;
     id <- getitem "id" (pi_id result) ;;
     ret ("Successfully created draft issue in project #"
          ++ str_int project_number ++ "!" ++ nl
          ++ "Item ID: " ++ id ++ nl
          ++ "Title: " ++ title))
    is_client_error
    (fun e =>
       ret ("Error: Could not create draft issue. Details: " ++ exn_msg e)).

Definition delete_project_item (owner : string) (project_number : Z)
    (item_id : string) : M W string :=
  try_except
    (deleted_item_id <-
       await (CDeleteProjectItem owner project_number item_id)
         (Client.delete_project_item github_client owner project_number
            item_id) ;;
     ret ("Successfully deleted item from project #"
          ++ str_int project_number ++ "!" ++ nl
          ++ "Deleted Item ID: " ++ deleted_item_id))
    is_client_error
    (fun e => ret ("Error: Could not delete item. Details: " ++ exn_msg e)).

End Server.

(* ------------------------------------------------------------------ *)
(** ** The tools as the server exposes them

    Each [@mcp.tool()] is one constructor, with the arguments of its
    signature; [run_tool] dispatches an invocation. *)

Inductive tool_call : Type :=
| TListProjects (owner : string)
| TGetProjectFields (owner : string) (project_number : Z)
| TGetProjectItems (owner : string) (project_number limit : Z)
    (state filter_field_name filter_field_value cursor : option string)
| TCreateIssue (owner repo title body : string)
    (assignees : option (list string))
| TAddIssueToProject (owner : string) (project_number : Z)
    (issue_owner issue_repo : string) (issue_number : Z)
| TSetProjectItemDates (owner : string) (project_number : Z)
    (item_id : string) (start_date end_date : option string)
    (start_field_name end_field_name : string)
| TAddIssueToProjectWithDates (owner : string) (project_number : Z)
    (issue_owner issue_repo : string) (issue_number : Z)
    (start_date end_date : option string)
    (start_field_name end_field_name : string)
| TCreateIssueAndAddToProject (owner repo : string) (project_number : Z)
    (title body : string) (assignees : option (list string))
    (start_date end_date : option string)
    (start_field_name end_field_name : string)
| TUpdateProjectItemField (owner : string) (project_number : Z)
    (item_id field_id field_value : string)
| TCreateDraftIssue (owner : string) (project_number : Z)
    (title body : string) (assignees : option (list string))
| TDeleteProjectItem (owner : string) (project_number : Z) (item_id : string).

Definition run_tool {B : PyBuiltins} {W : Type} (github_client : Client.t W)
    (t : tool_call) : M W string :=
  match t with
  | TListProjects owner => list_projects github_client owner
  | TGetProjectFields owner n => get_project_fields github_client owner n
  | TGetProjectItems owner n limit state fname fvalue cursor =>
      get_project_items github_client owner n limit state fname fvalue cursor
  | TCreateIssue owner repo title body assignees =>
      create_issue github_client owner repo title body assignees
  | TAddIssueToProject owner n issue_owner issue_repo issue_number =>
      add_issue_to_project github_client owner n issue_owner issue_repo
        issue_number
  | TSetProjectItemDates owner n item_id sd ed sfn efn =>
      set_project_item_dates github_client owner n item_id sd ed sfn efn
  | TAddIssueToProjectWithDates owner n io ir inum sd ed sfn efn =>
      add_issue_to_project_with_dates github_client owner n io ir inum
        sd ed sfn efn
  | TCreateIssueAndAddToProject owner repo n title body assignees
      sd ed sfn efn =>
      create_issue_and_add_to_project github_client owner repo n title body
        assignees sd ed sfn efn
  | TUpdateProjectItemField owner n item_id field_id field_value =>
      update_project_item_field github_client owner n item_id field_id
        field_value
  | TCreateDraftIssue owner n title body assignees =>
      create_draft_issue github_client owner n title body assignees
  | TDeleteProjectItem owner n item_id =>
      delete_project_item github_client owner n item_id
  end.

(** The exception classes a tool's outer [except] clause names. *)
Definition handled (t : tool_call) (e : exn) : bool :=
  match t with
  | TGetProjectItems _ _ _ _ _ _ _ | TSetProjectItemDates _ _ _ _ _ _ _ =>
      is_client_or_value_error e
  | _ => is_client_error e
  end.


(** The exception classes the inner [try] around such a call names:
    [except Exception] for the field lookup,
    [except (GitHubClientError, ValueError)] for the date step. *)
Definition inner_catches (t : tool_call) (c : call) (e : exn) : bool :=
  match t, c with
  | TGetProjectItems _ _ _ _ _ _ _, CGetProjectFieldsDetails _ _ =>
      is_exception e
  | TAddIssueToProjectWithDates _ _ _ _ _ _ _ _ _,
    CSetProjectItemDates _ _ _ _ _ _ _ => is_client_or_value_error e
  | TCreateIssueAndAddToProject _ _ _ _ _ _ _ _ _ _,
    CSetProjectItemDates _ _ _ _ _ _ _ => is_client_or_value_error e
  | _, _ => false
  end.

(** The number of [await github_client...] expressions on the longest
    path through a tool. *)
Definition call_budget (t : tool_call) : nat :=
  match t with
  | TCreateIssueAndAddToProject _ _ _ _ _ _ _ _ _ _ => 3
  | TGetProjectItems _ _ _ _ _ _ _ => 2
  | TAddIssueToProjectWithDates _ _ _ _ _ _ _ _ _ => 2
  | _ => 1
  end.

(** No event follows an event that raised. *)
Fixpoint raise_is_last (trace : list event) : bool :=
  match trace with
  | [] => true
  | ev :: rest =>
      match ev_raised ev with
      | Some _ => negb (nonempty rest)
      | None => raise_is_last rest
      end
  end.

(** The concatenation of a list of texts, in order. *)
Definition concat_all (parts : list string) : string :=
  fold_right append EmptyString parts.

(** The lines [list_projects] writes for one project. *)
Definition project_block (project : Project) : string :=
  "- ID: " ++ proj_id project ++ nl
  ++ "  Number: " ++ str_int (proj_number project) ++ nl
  ++ "  Title: " ++ proj_title project ++ nl
  ++ "  URL: " ++ proj_url project ++ nl
  ++ nl.

(** A field's dict has the two keys [get_project_fields] subscripts. *)
Definition has_id_and_type (d : FieldDetails) : bool :=
  match fd_id d, fd_type d with
  | Some _, Some _ => true
  | _, _ => false
  end.

(** The line [get_project_fields] writes for one option. *)
Definition option_line (opt : string * string) : string :=
  "    - " ++ fst opt ++ ": " ++ snd opt ++ nl.

(** The lines [get_project_fields] writes for one field whose dict has
    [id] and [type]. *)
Definition field_block (entry : string * FieldDetails) : string :=
  let details := snd entry in
  "- Name: " ++ fst entry ++ nl
  ++ "  ID: " ++ fmt_opt (fd_id details) ++ nl
  ++ "  Type: " ++ fmt_opt (fd_type details) ++ nl
  ++ (if String.eqb (fmt_opt (fd_type details)) "ProjectV2SingleSelectField"
         && truthy_list (fd_options details)
      then "  Options (Name: ID):" ++ nl
           ++ concat_all
                (map option_line
                   (match fd_options details with
                    | Some options => options
                    | None => []
                    end))
      else EmptyString)
  ++ nl.

(** The [KeyError] of the first key a field's dict lacks. *)
Definition missing_key_error (d : FieldDetails) : exn :=
  match fd_id d with
  | None => OtherException "'id'"
  | Some _ => OtherException "'type'"
  end.

(** The two validations that end a tool before it awaits anything: both
    filters given to [get_project_items], no date given to
    [set_project_item_dates]. *)
Definition rejected_by_validation (t : tool_call) : bool :=
  match t with
  | TGetProjectItems _ _ _ state filter_field_name _ _ =>
      truthy state && truthy filter_field_name
  | TSetProjectItemDates _ _ _ start_date end_date _ _ =>
      negb (truthy start_date || truthy end_date)
  | _ => false
  end.

(** The lines [get_project_items] writes for one item. *)
Definition item_block {B : PyBuiltins} (item : Item) : string :=
  format_item EmptyString item.

(** The [Field Values] lines of one item. *)
Definition field_values_block {B : PyBuiltins} (item : Item) : string :=
  if truthy_list (it_fieldValues item)
  then "  Field Values:" ++ nl
       ++ concat_all
            (map (fun fv => "    - " ++ fst fv ++ ": "
                            ++ str_display (snd fv) ++ nl)
               (match it_fieldValues item with
                | Some values => values
                | None => []
                end))
  else EmptyString.

(** The client calls of a run, without their outcomes. *)
Definition calls_of (trace : list event) : list call := map ev_call trace.

(** The event of a [get_project_items] call of the client that returned. *)
Definition items_returned (owner : string) (project_number limit : Z)
    (state filter_field_name filter_field_value cursor : option string)
    : event :=
  {| ev_call := CGetProjectItems owner project_number limit state
                  filter_field_name filter_field_value cursor;
     ev_raised := None |}.

(** The event of a [get_project_fields_details] call of the client. *)
Definition fields_looked_up (owner : string) (project_number : Z)
    (raised : option exn) : event :=
  {| ev_call := CGetProjectFieldsDetails owner project_number;
     ev_raised := raised |}.

(** The text a run returned, when it returned one. *)
Definition returned {W : Type} (r : outcome string * W * list event)
    : option string :=
  match r with
  | (Ok text, _, _) => Some text
  | (Raise _, _, _) => None
  end.

(** The calls a run made, with what they raised. *)
Definition trace_of {W : Type} (r : outcome string * W * list event)
    : list event := snd r.


(** A computation that calls no client method, leaves the world alone and
    raises neither a client nor a validation error. *)
Definition quiet {W A : Type} (m : M W A) : Prop :=
  forall w, exists r,
    m w = (r, w, []) /\
    forall e, r = Raise e -> is_client_or_value_error e = false.

(** [needle in text]. *)
Fixpoint mentions (needle text : string) : bool :=
  if prefix needle text then true
  else match text with
       | EmptyString => false
       | String _ rest => mentions needle rest
       end.

(* ------------------------------------------------------------------ *)
(** ** Fixtures: an ASCII instance of the library functions and a scripted
    client, used to run the tools on concrete inputs *)

Module Fixture.

Definition lower_char (c : ascii) : ascii :=
  let n := nat_of_ascii c in
  if (65 <=? n)%nat && (n <=? 90)%nat then ascii_of_nat (n + 32) else c.

Definition upper_char (c : ascii) : ascii :=
  let n := nat_of_ascii c in
  if (97 <=? n)%nat && (n <=? 122)%nat then ascii_of_nat (n - 32) else c.

Fixpoint map_string (f : ascii -> ascii) (s : string) : string :=
  match s with
  | EmptyString => EmptyString
  | String c rest => String (f c) (map_string f rest)
  end.

(** The float of an integer. *)
Definition float_of_Z (n : Z) : float :=
  match n with
  | Z0 => S754_zero false
  | Zpos p => S754_finite false p 0
  | Zneg p => S754_finite true p 0
  end.

(** Decimal integers, and three more literals. *)
Definition parse_float (s : string) : option float :=
  if String.eqb s "1.5" then Some (S754_finite false 3 (-1))
  else if String.eqb s "inf" then Some (S754_infinity false)
  else if String.eqb s "nan" then Some S754_nan
  else match NilEmpty.int_of_string s with
       | Some d => Some (float_of_Z (Z.of_int d))
       | None => None
       end.

#[local] Instance builtins : PyBuiltins := {|
  str_lower := map_string lower_char;
  str_upper := map_string upper_char;
  repr_str_list :=
    fun names => "[" ++ join ", " (map (fun n => "'" ++ n ++ "'") names) ++ "]";
  float_of_str := parse_float;
  str_float :=
    fun x => if is_integer x then str_int (int_of_float x) ++ ".0"
             else "1.5";
  json_dumps := fun _ => "{}"
|}.

(** A client that answers from a script, whatever the arguments, and
    counts the calls it served in its world. *)
Record script : Type := {
  s_fields : outcome (list (string * FieldDetails));
  s_items : outcome ItemsPage;
  s_issue : outcome Issue;
  s_added : outcome ProjectItem;
  s_dates : outcome (list (string * string))
}.

Definition scripted (s : script) : Client.t nat := {|
  Client.get_projects := fun _ w => (Ok [], S w);
  Client.get_project_fields_details := fun _ _ w => (s_fields s, S w);
  Client.get_project_items := fun _ _ _ _ _ _ _ w => (s_items s, S w);
  Client.create_issue := fun _ _ _ _ _ w => (s_issue s, S w);
  Client.add_issue_to_project := fun _ _ _ _ _ w => (s_added s, S w);
  Client.set_project_item_dates := fun _ _ _ _ _ _ _ w => (s_dates s, S w);
  Client.update_project_item_field := fun _ _ _ _ _ w => (Ok tt, S w);
  Client.add_draft_issue_to_project := fun _ _ _ _ _ w => (s_added s, S w);
  Client.delete_project_item := fun _ _ item_id w => (Ok item_id, S w)
|}.

Definition empty_page : ItemsPage :=
  {| page_items := [];
     page_pageInfo := {| hasNextPage := Some false; endCursor := None |} |}.

Definition issue_42 : Issue :=
  {| iss_number := Some 42%Z;
     iss_title := Some "Fix login";
     iss_url := Some "https://github.com/acme/web/issues/42";
     iss_assignees := None |}.

Definition new_item : ProjectItem := {| pi_id := Some "PVTI_abc" |}.

Definition single_select (options : list (string * string)) : FieldDetails :=
  {| fd_id := Some "PVTSSF_1";
     fd_type := Some "ProjectV2SingleSelectField";
     fd_options := Some options;
     fd_iterations := None |}.

Definition iteration (iterations : list (string * string)) : FieldDetails :=
  {| fd_id := Some "PVTIF_1";
     fd_type := Some "ProjectV2IterationField";
     fd_options := None;
     fd_iterations := Some iterations |}.

Definition text_field : FieldDetails :=
  {| fd_id := Some "PVTF_1";
     fd_type := Some "ProjectV2Field";
     fd_options := None;
     fd_iterations := None |}.

(** A healthy project: everything succeeds. *)
Definition healthy : script :=
  {| s_fields := Ok [("Status", single_select [("Todo", "o1"); ("Done", "o2")])];
     s_items := Ok empty_page;
     s_issue := Ok issue_42;
     s_added := Ok new_item;
     s_dates := Ok [("Start Date", "2025-01-01")] |}.

(** The project number does not resolve: adding to the project fails. *)
Definition add_fails : script :=
  {| s_fields := s_fields healthy;
     s_items := s_items healthy;
     s_issue := s_issue healthy;
     s_added := Raise (GitHubClientError
                  "Could not resolve to a ProjectV2 with the number 999.");
     s_dates := s_dates healthy |}.

(** The project has no date fields the client accepts: the date step
    fails after a successful add. *)
Definition dates_fail : script :=
  {| s_fields := s_fields healthy;
     s_items := s_items healthy;
     s_issue := s_issue healthy;
     s_added := s_added healthy;
     s_dates := Raise (GitHubClientError "Field 'Start Date' is not a date field") |}.

(** The filter names a field the project has, of plain text type. *)
Definition text_status : script :=
  {| s_fields := Ok [("Status", text_field)];
     s_items := s_items healthy;
     s_issue := s_issue healthy;
     s_added := s_added healthy;
     s_dates := s_dates healthy |}.

(** The project has only a [Priority] field. *)
Definition no_status : script :=
  {| s_fields := Ok [("Priority", single_select [("High", "o1")])];
     s_items := s_items healthy;
     s_issue := s_issue healthy;
     s_added := s_added healthy;
     s_dates := s_dates healthy |}.

(** The field lookup itself fails. *)
Definition lookup_fails : script :=
  {| s_fields := Raise (GitHubClientError "API rate limit exceeded");
     s_items := s_items healthy;
     s_issue := s_issue healthy;
     s_added := s_added healthy;
     s_dates := s_dates healthy |}.

(** Two fields whose names differ only by case. *)
Definition two_status : script :=
  {| s_fields :=
       Ok [("Priority", text_field);
           ("status", single_select [("Todo", "o1"); ("Done", "o2")]);
           ("Status", iteration [("Sprint 1", "i1")])];
     s_items := s_items healthy;
     s_issue := s_issue healthy;
     s_added := s_added healthy;
     s_dates := s_dates healthy |}.

(** [create_issue] rejects its input with a validation error. *)
Definition create_rejects : script :=
  {| s_fields := s_fields healthy;
     s_items := s_items healthy;
     s_issue := Raise (ValueError "title must not be empty");
     s_added := s_added healthy;
     s_dates := s_dates healthy |}.

(** The second of three fields comes without its [type]. *)
Definition untyped_field : script :=
  {| s_fields :=
       Ok [("Title", text_field);
           ("Estimate", {| fd_id := Some "PVTF_2"; fd_type := None;
                           fd_options := None; fd_iterations := None |});
           ("Status", single_select [("Todo", "o1")])];
     s_items := s_items healthy;
     s_issue := s_issue healthy;
     s_added := s_added healthy;
     s_dates := s_dates healthy |}.

(** The scripted client, with [get_projects] answering [projects]. *)
Definition with_projects (projects : list Project) (s : script)
    : Client.t nat := {|
  Client.get_projects := fun _ w => (Ok projects, S w);
  Client.get_project_fields_details :=
    Client.get_project_fields_details (scripted s);
  Client.get_project_items := Client.get_project_items (scripted s);
  Client.create_issue := Client.create_issue (scripted s);
  Client.add_issue_to_project := Client.add_issue_to_project (scripted s);
  Client.set_project_item_dates := Client.set_project_item_dates (scripted s);
  Client.update_project_item_field :=
    Client.update_project_item_field (scripted s);
  Client.add_draft_issue_to_project :=
    Client.add_draft_issue_to_project (scripted s);
  Client.delete_project_item := Client.delete_project_item (scripted s)
|}.

Definition roadmap : Project :=
  {| proj_id := "PVT_1"; proj_number := 7; proj_title := "Roadmap";
     proj_url := "https://github.com/orgs/acme/projects/7" |}.

Definition backlog : Project :=
  {| proj_id := "PVT_2"; proj_number := 12; proj_title := "Backlog";
     proj_url := "https://github.com/orgs/acme/projects/12" |}.



(** The field lookup is cancelled: an exception that [except Exception]
    does not catch. *)
Definition lookup_cancelled : script :=
  {| s_fields := Raise (BaseExceptionOnly "CancelledError");
     s_items := s_items healthy;
     s_issue := s_issue healthy;
     s_added := s_added healthy;
     s_dates := s_dates healthy |}.

(** The add succeeds but the answer carries no item id. *)
Definition added_without_id : script :=
  {| s_fields := s_fields healthy;
     s_items := s_items healthy;
     s_issue := s_issue healthy;
     s_added := Ok {| pi_id := None |};
     s_dates := s_dates healthy |}.

(** The project has neither of the named date fields: nothing is updated. *)
Definition no_date_fields : script :=
  {| s_fields := s_fields healthy;
     s_items := s_items healthy;
     s_issue := s_issue healthy;
     s_added := s_added healthy;
     s_dates := Ok [] |}.

(** The created issue comes back without its URL. *)
Definition issue_without_url : script :=
  {| s_fields := s_fields healthy;
     s_items := s_items healthy;
     s_issue := Ok {| iss_number := Some 42%Z; iss_title := Some "Fix login";
                      iss_url := None; iss_assignees := Some ["octocat"] |};
     s_added := s_added healthy;
     s_dates := s_dates healthy |}.

(** Creating the issue fails. *)
Definition create_fails : script :=
  {| s_fields := s_fields healthy;
     s_items := s_items healthy;
     s_issue := Raise (GitHubClientError "Repository not found");
     s_added := s_added healthy;
     s_dates := s_dates healthy |}.

(** Sixty times the two-byte letter e-acute: 60 code points, 120 bytes. *)
Fixpoint repeat_string (n : nat) (s : string) : string :=
  match n with
  | O => EmptyString
  | S n' => s ++ repeat_string n' s
  end.

Definition e_acute : string :=
  String (ascii_of_nat 195) (String (ascii_of_nat 169) EmptyString).

Definition sixty_e_acute : string := repeat_string 60 e_acute.

Definition long_draft : Item :=
  {| it_id := "PVTI_d2";
     it_content :=
       Some {| c_typename := Some "DraftIssue"; c_number := None;
               c_title := Some "Notes"; c_state := None; c_url := None;
               c_id := Some "DI_2"; c_body := Some sixty_e_acute;
               c_repository := None |};
     it_fieldValues := None |}.



(** One invocation of a tool against a scripted client that has served
    no call yet. *)
Definition run (s : script) (t : tool_call)
    : outcome string * nat * list event :=
  run_tool (B := builtins) (scripted s) t 0%nat.

End Fixture.

(* ------------------------------------------------------------------ *)
(** ** Properties *)

Unset Implicit Arguments.

(** *** Shared facts *)

(** Concatenation of texts is associative, with the empty text as unit. *)
Lemma append_assoc (a b c : string) : (a ++ b) ++ c = a ++ b ++ c.
Proof. induction a as [|x a IH]; simpl; [reflexivity | now rewrite IH]. Qed.

Lemma append_nil_r (a : string) : a ++ EmptyString = a.
Proof. induction a as [|x a IH]; simpl; [reflexivity | now rewrite IH]. Qed.

(** Brings both sides of an equation between texts to right-nested form. *)
Ltac normalize_text := rewrite ?append_assoc, ?append_nil_r.

Section Facts.

Context {B : PyBuiltins} {W : Type}.
Variable cl : Client.t W.

Lemma truthy_false_cases (o : option string) :
  truthy o = false <-> o = None \/ o = Some EmptyString.
Proof.
  destruct o as [[|c s]|]; simpl; split; intros H; try reflexivity;
    try discriminate; auto.
  - destruct H as [H|H]; discriminate.
Qed.

Lemma truthy_fmt (o : option string) :
  truthy o = true -> o = Some (fmt_opt o).
Proof. destruct o; simpl; [reflexivity | discriminate]. Qed.

(** The lookup returns the first entry that matches up to case, whatever
    follows it. *)
Lemma find_field_first (pre post : list (string * FieldDetails))
    (fname name : string) (finfo : FieldDetails) :
  (forall entry, In entry pre ->
     str_lower (fst entry) <> str_lower name) ->
  str_lower fname = str_lower name ->
  find_field (pre ++ (fname, finfo) :: post)%list name = Some finfo.
Proof.
  intros Hpre Hhit. induction pre as [|[f i] pre IH]; simpl.
  - rewrite Hhit, String.eqb_refl. reflexivity.
  - destruct (String.eqb_spec (str_lower f) (str_lower name)) as [E|_].
    + exfalso. apply (Hpre (f, i)); [left; reflexivity | exact E].
    + apply IH. intros entry Hin. apply Hpre. right. exact Hin.
Qed.

(** The lookup finds nothing exactly when no name matches up to case. *)
Lemma find_field_none (fields : list (string * FieldDetails))
    (name : string) :
  find_field fields name = None <->
  (forall entry, In entry fields ->
     str_lower (fst entry) <> str_lower name).
Proof.
  induction fields as [|[f i] rest IH]; simpl.
  - split; [intros _ entry [] | reflexivity].
  - destruct (String.eqb_spec (str_lower f) (str_lower name)) as [E|N].
    + split; [discriminate|]. intros H. exfalso.
      apply (H (f, i)); [left; reflexivity | exact E].
    + rewrite IH. split.
      * intros H entry [<-|Hin]; [exact N | apply H, Hin].
      * intros H entry Hin. apply H. right. exact Hin.
Qed.

(** A float without fractional part is the integer [int] gives back:
    for a negative exponent the mantissa is that integer scaled. *)
Lemma int_of_float_exact (s : bool) (m : positive) (e : Z) :
  is_integer (S754_finite s m e) = true ->
  (e < 0)%Z ->
  (Z.pos m = Z.abs (int_of_float (S754_finite s m e)) * 2 ^ (- e))%Z.
Proof.
  simpl. intros Hint He.
  destruct (Z.leb_spec 0 e) as [Hle|_]; [lia|].
  apply Z.eqb_eq in Hint.
  assert (Hpow : (0 < 2 ^ (- e))%Z) by (apply Z.pow_pos_nonneg; lia).
  assert (Hq : (0 <= Z.pos m / 2 ^ (- e))%Z)
    by (apply Z.div_pos; lia).
  pose proof (Z.div_mod (Z.pos m) (2 ^ (- e))%Z ltac:(lia)) as Hdm.
  rewrite Hint in Hdm.
  destruct s; rewrite ?Z.abs_opp, Z.abs_eq by exact Hq; lia.
Qed.

(** [int] of a float without fractional part has the float's value. *)
Lemma int_of_float_value (x : float) :
  is_integer x = true -> float_equals_int x (int_of_float x).
Proof.
  destruct x as [s| s | |s m e];
    cbn [is_integer int_of_float float_equals_int];
    try discriminate; [reflexivity|].
  intros Hint. destruct (Z.leb_spec 0 e) as [Hle|Hlt].
  - rewrite (Z.max_l 0 (- e)), (Z.max_r 0 e) by lia.
    rewrite Z.pow_0_r, Z.mul_1_r.
    destruct s; unfold signed_mantissa;
      [change (Z.neg m) with (- Z.pos m)%Z; ring | reflexivity].
  - rewrite (Z.max_r 0 (- e)), (Z.max_l 0 e) by lia.
    rewrite Z.pow_0_r, Z.mul_1_r.
    apply Z.eqb_eq in Hint.
    assert (Hpow : (0 < 2 ^ (- e))%Z) by (apply Z.pow_pos_nonneg; lia).
    pose proof (Z.div_mod (Z.pos m) (2 ^ (- e))%Z ltac:(lia)) as Hdm.
    rewrite Hint in Hdm.
    destruct s; unfold signed_mantissa;
      [change (Z.neg m) with (- Z.pos m)%Z|]; lia.
Qed.

(** A float with a fractional part, an infinity and a NaN have the value
    of no integer. *)
Lemma fractional_float_has_no_int (x : float) (n : Z) :
  is_integer x = false -> ~ float_equals_int x n.
Proof.
  destruct x as [s| s | |s m e];
    cbn [is_integer float_equals_int]; try discriminate; auto.
  intros Hint Hval. destruct (Z.leb_spec 0 e) as [Hle|Hlt]; [discriminate|].
  rewrite (Z.max_r 0 (- e)), (Z.max_l 0 e) in Hval by lia.
  rewrite Z.pow_0_r, Z.mul_1_r in Hval.
  apply Z.eqb_neq in Hint. apply Hint.
  assert (Hpow : (0 < 2 ^ (- e))%Z) by (apply Z.pow_pos_nonneg; lia).
  destruct s; unfold signed_mantissa in Hval.
  - change (Z.neg m) with (- Z.pos m)%Z in Hval.
    replace (Z.pos m) with ((- n) * 2 ^ (- e))%Z by lia.
    apply Z.mod_mul. lia.
  - rewrite <- Hval. apply Z.mod_mul. lia.
Qed.

(** The integer a float has the value of is the one [int] gives. *)
Lemma float_equals_int_unique (x : float) (n : Z) :
  float_equals_int x n -> n = int_of_float x.
Proof.
  intros Hn.
  destruct (is_integer x) eqn:Hint;
    [|exfalso; exact (fractional_float_has_no_int x n Hint Hn)].
  pose proof (int_of_float_value x Hint) as Hi.
  destruct x as [s| s | |s m e];
    cbn [float_equals_int] in Hn, Hi; try contradiction;
    [cbn [int_of_float]; exact Hn|].
  assert (Hpow : (0 < 2 ^ Z.max 0 (- e))%Z)
    by (apply Z.pow_pos_nonneg; lia).
  rewrite <- Hi in Hn. apply Z.mul_reg_r in Hn; [exact Hn | lia].
Qed.

End Facts.

(** *** Validation before any client call *)

(** C4.  When [state] and [filter_field_name] are both given and non-empty,
    [get_project_items] returns its validation error, the client is not
    called at all (so its [get_project_items] is not), and the world is
    untouched. *)
Theorem get_project_items_rejects_both_filters
    {B : PyBuiltins} {W : Type} (cl : Client.t W)
    (owner : string) (project_number limit : Z)
    (state filter_field_name filter_field_value cursor : option string)
    (w : W) :
  truthy state = true ->
  truthy filter_field_name = true ->
  get_project_items cl owner project_number limit state filter_field_name
    filter_field_value cursor w
  = (Ok "Error: Cannot filter by both 'state' and a custom field ('filter_field_name') simultaneously.",
     w, []).
Proof.
  intros Hstate Hname. unfold get_project_items.
  rewrite Hstate, Hname. reflexivity.
Qed.

Lemma get_project_items_rejects_both_filters_witness :
  truthy (Some "OPEN") = true /\ truthy (Some "Status") = true /\
  Fixture.run Fixture.healthy
    (TGetProjectItems "acme" 7 50 (Some "OPEN") (Some "Status") (Some "open")
       None)
  = (Ok "Error: Cannot filter by both 'state' and a custom field ('filter_field_name') simultaneously.",
     0%nat, []).
Proof.
  split; [reflexivity | split; [reflexivity |]].
  apply (get_project_items_rejects_both_filters (B := Fixture.builtins));
    reflexivity.
Defined.

(** C5.  Called with neither [start_date] nor [end_date],
    [set_project_item_dates] returns its validation error without calling
    the client and without touching the world. *)
Theorem set_project_item_dates_requires_a_date
    {B : PyBuiltins} {W : Type} (cl : Client.t W)
    (owner : string) (project_number : Z) (item_id : string)
    (start_field_name end_field_name : string) (w : W) :
  set_project_item_dates cl owner project_number item_id None None
    start_field_name end_field_name w
  = (Ok "Error: Provide at least one of start_date or end_date", w, []).
Proof. reflexivity. Qed.

(** C10.  An empty string counts as an absent date: when each of
    [start_date] and [end_date] is [None] or the empty string,
    [set_project_item_dates] gives the same validation error as for two
    omitted dates, and makes no client call. *)
Theorem set_project_item_dates_empty_string_is_absent
    {B : PyBuiltins} {W : Type} (cl : Client.t W)
    (owner : string) (project_number : Z) (item_id : string)
    (start_date end_date : option string)
    (start_field_name end_field_name : string) (w : W) :
  start_date = None \/ start_date = Some EmptyString ->
  end_date = None \/ end_date = Some EmptyString ->
  set_project_item_dates cl owner project_number item_id start_date end_date
    start_field_name end_field_name w
  = (Ok "Error: Provide at least one of start_date or end_date", w, [])
  /\ set_project_item_dates cl owner project_number item_id
       start_date end_date start_field_name end_field_name w
     = set_project_item_dates cl owner project_number item_id
         None None start_field_name end_field_name w.
Proof.
  intros Hs He.
  apply truthy_false_cases in Hs. apply truthy_false_cases in He.
  unfold set_project_item_dates. rewrite Hs, He. split; reflexivity.
Qed.

Lemma set_project_item_dates_empty_string_is_absent_witness :
  Fixture.run Fixture.healthy
    (TSetProjectItemDates "acme" 7 "PVTI_abc" (Some EmptyString)
       (Some EmptyString) "Start Date" "End Date")
  = (Ok "Error: Provide at least one of start_date or end_date", 0%nat, []).
Proof.
  apply (set_project_item_dates_empty_string_is_absent
           (B := Fixture.builtins)
           (Fixture.scripted Fixture.healthy) "acme" 7 "PVTI_abc"
           (Some EmptyString) (Some EmptyString) "Start Date" "End Date"
           0%nat).
  - right; reflexivity.
  - right; reflexivity.
Defined.

(** *** Composed tools and partial failure *)

(** C1, as the code has it.  When [create_issue] succeeds and the
    following [add_issue_to_project] raises a client error,
    [create_issue_and_add_to_project] returns the error text of its single
    [except] clause: the fixed prefix followed by the client's message.
    Both calls were made; no date call follows. *)
Theorem create_issue_and_add_add_failure_is_error
    {B : PyBuiltins} {W : Type} (cl : Client.t W)
    (owner repo : string) (project_number : Z) (title body : string)
    (assignees : option (list string)) (start_date end_date : option string)
    (start_field_name end_field_name : string)
    (w w1 w2 : W) (issue : Issue) (msg : string) :
  Client.create_issue cl owner repo title body assignees w = (Ok issue, w1) ->
  Client.add_issue_to_project cl owner project_number owner repo
    (iss_number issue) w1 = (Raise (GitHubClientError msg), w2) ->
  create_issue_and_add_to_project cl owner repo project_number title body
    assignees start_date end_date start_field_name end_field_name w
  = (Ok ("Error: Could not create/add issue or set dates. Details: " ++ msg),
     w2,
     [ {| ev_call := CCreateIssue owner repo title body assignees;
          ev_raised := None |};
       {| ev_call := CAddIssueToProject owner project_number owner repo
                       (iss_number issue);
          ev_raised := Some (GitHubClientError msg) |} ]).
Proof.
  intros Hcreate Hadd.
  unfold create_issue_and_add_to_project, try_except, bind, await.
  rewrite Hcreate. cbv beta iota. rewrite Hadd. reflexivity.
Qed.

Lemma create_issue_and_add_add_failure_is_error_witness :
  Fixture.run Fixture.add_fails
    (TCreateIssueAndAddToProject "acme" "web" 999 "Fix login" EmptyString
       None None None "Start Date" "End Date")
  = (Ok "Error: Could not create/add issue or set dates. Details: Could not resolve to a ProjectV2 with the number 999.",
     2%nat,
     [ {| ev_call := CCreateIssue "acme" "web" "Fix login" EmptyString None;
          ev_raised := None |};
       {| ev_call := CAddIssueToProject "acme" 999 "acme" "web" (Some 42%Z);
          ev_raised := Some (GitHubClientError
            "Could not resolve to a ProjectV2 with the number 999.") |} ]).
Proof.
  apply (create_issue_and_add_add_failure_is_error (B := Fixture.builtins)
           (Fixture.scripted Fixture.add_fails) "acme" "web" 999 "Fix login"
           EmptyString None None None "Start Date" "End Date"
           0%nat 1%nat 2%nat Fixture.issue_42
           "Could not resolve to a ProjectV2 with the number 999.");
    reflexivity.
Defined.

(** C1, as stated, fails: issue 42 is created, adding it to project 999
    raises a client error, and the text that comes back names neither the
    issue's number nor its URL. *)
Lemma create_issue_and_add_drops_issue_identity :
  let r := Fixture.run Fixture.add_fails
             (TCreateIssueAndAddToProject "acme" "web" 999 "Fix login"
                EmptyString None None None "Start Date" "End Date") in
  map ev_raised (trace_of r)
  = [ None;
      Some (GitHubClientError
              "Could not resolve to a ProjectV2 with the number 999.") ]
  /\ returned r
     = Some "Error: Could not create/add issue or set dates. Details: Could not resolve to a ProjectV2 with the number 999."
  /\ iss_number Fixture.issue_42 = Some 42%Z
  /\ option_map (mentions "42") (returned r) = Some false
  /\ option_map (mentions "https://github.com/acme/web/issues/42")
       (returned r) = Some false.
Proof. cbv zeta. repeat split; reflexivity. Qed.

(** C3.  [add_issue_to_project_with_dates]: a client error of
    [add_issue_to_project] makes the whole call an error text; after a
    successful add, a client or validation error of the date call (made
    when the new item has an id and a date was given) leaves the success
    text of the add, with the new item's id, followed by a warning that
    carries the error's message. *)
Theorem add_issue_to_project_with_dates_partial_failure
    {B : PyBuiltins} {W : Type} (cl : Client.t W)
    (owner : string) (project_number : Z) (issue_owner issue_repo : string)
    (issue_number : Z) (start_date end_date : option string)
    (start_field_name end_field_name : string) (w : W) :
  (forall (msg : string) (w1 : W),
     Client.add_issue_to_project cl owner project_number issue_owner
       issue_repo (Some issue_number) w = (Raise (GitHubClientError msg), w1) ->
     add_issue_to_project_with_dates cl owner project_number issue_owner
       issue_repo issue_number start_date end_date start_field_name
       end_field_name w
     = (Ok ("Error: Could not add issue or set dates. Details: " ++ msg), w1,
        [ {| ev_call := CAddIssueToProject owner project_number issue_owner
                          issue_repo (Some issue_number);
             ev_raised := Some (GitHubClientError msg) |} ]))
  /\
  (forall (item : ProjectItem) (item_id : string) (e : exn) (w1 w2 : W),
     Client.add_issue_to_project cl owner project_number issue_owner
       issue_repo (Some issue_number) w = (Ok item, w1) ->
     pi_id item = Some item_id ->
     truthy_str item_id = true ->
     truthy start_date || truthy end_date = true ->
     Client.set_project_item_dates cl owner project_number item_id
       start_date end_date start_field_name end_field_name w1
     = (Raise e, w2) ->
     is_client_or_value_error e = true ->
     add_issue_to_project_with_dates cl owner project_number issue_owner
       issue_repo issue_number start_date end_date start_field_name
       end_field_name w
     = (Ok ("Successfully added issue " ++ issue_owner ++ "/" ++ issue_repo
            ++ "#" ++ str_int issue_number ++ " to project #"
            ++ str_int project_number ++ "!" ++ nl
            ++ "Item ID: " ++ item_id ++ nl
            ++ "Warning: Issue added but failed to set dates: " ++ exn_msg e),
        w2,
        [ {| ev_call := CAddIssueToProject owner project_number issue_owner
                          issue_repo (Some issue_number);
             ev_raised := None |};
          {| ev_call := CSetProjectItemDates owner project_number item_id
                          start_date end_date start_field_name end_field_name;
             ev_raised := Some e |} ])).
Proof.
  split.
  - intros msg w1 Hadd.
    unfold add_issue_to_project_with_dates, try_except, bind, await.
    rewrite Hadd. reflexivity.
  - intros item item_id e w1 w2 Hadd Hid Htruthy Hdates Hset Hclass.
    unfold add_issue_to_project_with_dates, set_dates_step,
      try_except, bind, await.
    rewrite Hadd. cbv beta iota. rewrite Hid.
    change (truthy (Some item_id)) with (truthy_str item_id).
    change (fmt_opt (Some item_id)) with item_id.
    rewrite Htruthy, Hdates. cbn [andb]. cbv beta iota.
    rewrite Hset. cbv beta iota. rewrite Hclass. reflexivity.
Qed.

Lemma add_issue_to_project_with_dates_partial_failure_witness :
  Fixture.run Fixture.add_fails
    (TAddIssueToProjectWithDates "acme" 999 "acme" "web" 42
       (Some "2025-01-01") None "Start Date" "End Date")
  = (Ok "Error: Could not add issue or set dates. Details: Could not resolve to a ProjectV2 with the number 999.",
     1%nat,
     [ {| ev_call := CAddIssueToProject "acme" 999 "acme" "web" (Some 42%Z);
          ev_raised := Some (GitHubClientError
            "Could not resolve to a ProjectV2 with the number 999.") |} ])
  /\
  Fixture.run Fixture.dates_fail
    (TAddIssueToProjectWithDates "acme" 7 "acme" "web" 42
       (Some "2025-01-01") None "Start Date" "End Date")
  = (Ok ("Successfully added issue acme/web#42 to project #7!" ++ nl
         ++ "Item ID: PVTI_abc" ++ nl
         ++ "Warning: Issue added but failed to set dates: Field 'Start Date' is not a date field"),
     2%nat,
     [ {| ev_call := CAddIssueToProject "acme" 7 "acme" "web" (Some 42%Z);
          ev_raised := None |};
       {| ev_call := CSetProjectItemDates "acme" 7 "PVTI_abc"
                       (Some "2025-01-01") None "Start Date" "End Date";
          ev_raised := Some (GitHubClientError
            "Field 'Start Date' is not a date field") |} ]).
Proof.
  split.
  - apply (proj1 (add_issue_to_project_with_dates_partial_failure
                    (B := Fixture.builtins)
                    (Fixture.scripted Fixture.add_fails) "acme" 999 "acme"
                    "web" 42 (Some "2025-01-01") None "Start Date" "End Date"
                    0%nat)).
    reflexivity.
  - apply (proj2 (add_issue_to_project_with_dates_partial_failure
                    (B := Fixture.builtins)
                    (Fixture.scripted Fixture.dates_fail) "acme" 7 "acme"
                    "web" 42 (Some "2025-01-01") None "Start Date" "End Date"
                    0%nat)
             Fixture.new_item "PVTI_abc"
             (GitHubClientError "Field 'Start Date' is not a date field")
             1%nat 2%nat); reflexivity.
Defined.

(** *** The zero-items branch of [get_project_items] *)

Section ZeroItems.

Context {B : PyBuiltins} {W : Type}.
Variable cl : Client.t W.
Variables (owner : string) (project_number limit : Z).

(** The debug block calls the client once, for the field details. *)
Lemma zero_match_debug_calls (name value desc : string) (w : W) :
  calls_of (snd (zero_match_debug cl owner project_number limit
                   name value desc w))
  = [CGetProjectFieldsDetails owner project_number].
Proof.
  unfold zero_match_debug, try_except, bind, await.
  destruct (Client.get_project_fields_details cl owner project_number w)
    as [[fields|e] w1]; cbv beta iota.
  - destruct (find_field fields name) as [info|]; [|reflexivity].
    destruct (fd_truthy info); [|reflexivity].
    destruct (String.eqb _ "ProjectV2SingleSelectField"); [reflexivity|].
    destruct (String.eqb _ "ProjectV2IterationField"); reflexivity.
  - destruct (is_exception e); reflexivity.
Qed.

(** The one call of the debug block is the client's field lookup: the
    block leaves the world that call left and records what it raised. *)
Lemma zero_match_debug_step (name value desc : string) (w : W) :
  let looked := Client.get_project_fields_details cl owner project_number w in
  let run := zero_match_debug cl owner project_number limit name value
               desc w in
  snd (fst run) = snd looked
  /\ snd run = [fields_looked_up owner project_number
                  (raised_of (fst looked))].
Proof.
  cbv zeta. unfold zero_match_debug, try_except, bind, await.
  destruct (Client.get_project_fields_details cl owner project_number w)
    as [[fields|e] w1]; cbv beta iota.
  - destruct (find_field fields name) as [info|]; [|split; reflexivity].
    destruct (fd_truthy info); [|split; reflexivity].
    destruct (String.eqb _ "ProjectV2SingleSelectField");
      [split; reflexivity|].
    destruct (String.eqb _ "ProjectV2IterationField"); split; reflexivity.
  - destruct (is_exception e); split; reflexivity.
Qed.

(** What the debug block gives when the lookup succeeds, by the entry
    [find_field] selects. *)
Lemma zero_match_debug_ok (name value desc : string) (w w1 : W)
    (fields : list (string * FieldDetails)) :
  Client.get_project_fields_details cl owner project_number w
  = (Ok fields, w1) ->
  zero_match_debug cl owner project_number limit name value desc w
  = (Ok (match find_field fields name with
         | None => None
         | Some field_info =>
             if fd_truthy field_info then
               let field_type := get_default (fd_type field_info) "Unknown" in
               if String.eqb field_type "ProjectV2SingleSelectField" then
                 Some ("No items found in project #"
                       ++ str_int project_number
                       ++ " for " ++ owner ++ desc ++ nl ++ nl
                       ++ "Debug info:" ++ nl
                       ++ "- Found field '" ++ name
                       ++ "' with type '" ++ field_type ++ "'" ++ nl
                       ++ "- Available options: "
                       ++ repr_str_list
                            (map fst (get_default (fd_options field_info) []))
                       ++ nl ++ debug_note limit value)
               else if String.eqb field_type "ProjectV2IterationField" then
                 Some ("No items found in project #"
                       ++ str_int project_number
                       ++ " for " ++ owner ++ desc ++ nl ++ nl
                       ++ "Debug info:" ++ nl
                       ++ "- Found field '" ++ name
                       ++ "' with type '" ++ field_type ++ "'" ++ nl
                       ++ "- Available iterations: "
                       ++ repr_str_list
                            (map fst
                               (get_default (fd_iterations field_info) []))
                       ++ nl ++ debug_note limit value)
               else None
             else None
         end),
     w1,
     [ {| ev_call := CGetProjectFieldsDetails owner project_number;
          ev_raised := None |} ]).
Proof.
  intros Hfields.
  unfold zero_match_debug, try_except, bind, await.
  rewrite Hfields. cbv beta iota.
  destruct (find_field fields name) as [info|]; [|reflexivity].
  destruct (fd_truthy info); [|reflexivity].
  cbv zeta.
  destruct (String.eqb _ "ProjectV2SingleSelectField"); [reflexivity|].
  destruct (String.eqb _ "ProjectV2IterationField"); reflexivity.
Qed.

(** An exception of the lookup that [except Exception] catches is
    dropped: the block falls through. *)
Lemma zero_match_debug_raise (name value desc : string) (w w1 : W)
    (e : exn) :
  Client.get_project_fields_details cl owner project_number w
  = (Raise e, w1) ->
  is_exception e = true ->
  zero_match_debug cl owner project_number limit name value desc w
  = (Ok None, w1,
     [ {| ev_call := CGetProjectFieldsDetails owner project_number;
          ev_raised := Some e |} ]).
Proof.
  intros Hfields He.
  unfold zero_match_debug, try_except, bind, await.
  rewrite Hfields. cbv beta iota. rewrite He. reflexivity.
Qed.

Variables (state filter_field_name filter_field_value cursor
           : option string).

Let items_event : event :=
  items_returned owner project_number limit state filter_field_name
    filter_field_value cursor.

(** [get_project_items] on an empty page, from the source's three
    branches: a continuation page, a first page with a custom-field
    filter (the debug block runs), and a first page without one. *)
Lemma get_project_items_zero_items (w w1 : W) (page : ItemsPage) :
  truthy state && truthy filter_field_name = false ->
  Client.get_project_items cl owner project_number limit state
    filter_field_name filter_field_value cursor w = (Ok page, w1) ->
  page_items page = [] ->
  let desc := filter_desc_of state filter_field_name filter_field_value in
  get_project_items cl owner project_number limit state filter_field_name
    filter_field_value cursor w
  = if truthy cursor then
      (Ok ("No more items found in project #" ++ str_int project_number
           ++ " for " ++ owner ++ desc), w1, [items_event])
    else if truthy filter_field_name && truthy filter_field_value then
      match zero_match_debug cl owner project_number limit
              (fmt_opt filter_field_name) (fmt_opt filter_field_value)
              desc w1 with
      | (Ok (Some text), w2, t) => (Ok text, w2, items_event :: t)
      | (Ok None, w2, t) =>
          (Ok (no_items_text owner project_number desc), w2,
           items_event :: t)
      | (Raise e, w2, t) =>
          if is_client_or_value_error e
          then (Ok ("Error: Could not get items for project " ++ owner
                    ++ "/" ++ str_int project_number ++ ". Details: "
                    ++ exn_msg e), w2, items_event :: t)
          else (Raise e, w2, items_event :: t)
      end
    else (Ok (no_items_text owner project_number desc), w1, [items_event]).
Proof.
  intros Hboth Hitems Hempty desc.
  unfold get_project_items. rewrite Hboth.
  unfold try_except at 1. unfold bind at 1. unfold await.
  rewrite Hitems. cbv beta iota zeta. rewrite Hempty.
  cbn [nonempty negb]. cbv iota.
  destruct (truthy cursor); [reflexivity|].
  destruct (truthy filter_field_name && truthy filter_field_value);
    [|reflexivity].
  unfold bind. fold desc.
  destruct (zero_match_debug cl owner project_number limit
              (fmt_opt filter_field_name) (fmt_opt filter_field_value)
              desc w1) as [[[[text|]|e] w2] t];
    unfold ret; cbv beta iota; rewrite ?app_nil_r; reflexivity.
Qed.

End ZeroItems.

(** C6.  When a custom-field filter (name and value both given) gets an
    empty page, the field details are looked up exactly when no cursor was
    given.  Without a cursor the client's [get_project_fields_details] is
    called right after the items call, in the world the items call left:
    the run ends in the world that lookup left and records what it
    raised.  With a cursor the items call is the only client call and the
    text is the plain no-more-items line. *)
Theorem field_lookup_only_on_first_page
    {B : PyBuiltins} {W : Type} (cl : Client.t W)
    (owner : string) (project_number limit : Z)
    (state filter_field_name filter_field_value cursor : option string)
    (w w1 : W) (page : ItemsPage) :
  truthy state = false ->
  truthy filter_field_name = true ->
  truthy filter_field_value = true ->
  Client.get_project_items cl owner project_number limit state
    filter_field_name filter_field_value cursor w = (Ok page, w1) ->
  page_items page = [] ->
  let r := get_project_items cl owner project_number limit state
             filter_field_name filter_field_value cursor w in
  let looked := Client.get_project_fields_details cl owner project_number
                  w1 in
  (In (CGetProjectFieldsDetails owner project_number) (calls_of (trace_of r))
   <-> truthy cursor = false)
  /\ (truthy cursor = false ->
      calls_of (trace_of r)
      = [ CGetProjectItems owner project_number limit state
            filter_field_name filter_field_value cursor;
          CGetProjectFieldsDetails owner project_number ])
  /\ (truthy cursor = false ->
      trace_of r
      = [ items_returned owner project_number limit state
            filter_field_name filter_field_value cursor;
          fields_looked_up owner project_number (raised_of (fst looked)) ]
      /\ snd (fst r) = snd looked)
  /\ (truthy cursor = true ->
      r = (Ok ("No more items found in project #" ++ str_int project_number
               ++ " for " ++ owner ++ " (Filter: "
               ++ fmt_opt filter_field_name ++ " = '"
               ++ fmt_opt filter_field_value ++ "')"),
           w1,
           [ items_returned owner project_number limit state
               filter_field_name filter_field_value cursor ])).
Proof.
  intros Hstate Hname Hvalue Hitems Hempty r looked. subst r looked.
  rewrite (get_project_items_zero_items cl owner project_number limit
             state filter_field_name filter_field_value cursor w w1 page)
    by (try rewrite Hstate; auto).
  unfold filter_desc_of. rewrite Hstate, Hname, Hvalue. cbn [andb].
  destruct (truthy cursor).
  - split; [|split; [|split]]; [| discriminate | discriminate | reflexivity].
    split; [|discriminate].
    unfold trace_of, calls_of. simpl. intros [H|[]]. discriminate.
  - pose proof (zero_match_debug_step cl owner project_number limit
                  (fmt_opt filter_field_name) (fmt_opt filter_field_value)
                  (" (Filter: " ++ fmt_opt filter_field_name ++ " = '"
                   ++ fmt_opt filter_field_value ++ "')") w1) as Hstep.
    cbv zeta in Hstep.
    destruct (zero_match_debug _ _ _ _ _ _ _ _) as [[[[text|]|e] w2] t];
      cbn [fst snd] in Hstep; destruct Hstep as [Hworld Htrace];
      try destruct (is_client_or_value_error e);
      unfold trace_of, calls_of; cbn [fst snd];
      rewrite Htrace, Hworld;
      (split; [|split; [|split]];
       [| reflexivity | split; reflexivity | discriminate]);
      (split; [reflexivity | intros _; right; left; reflexivity]).
Qed.

Lemma field_lookup_only_on_first_page_witness :
  let first := Fixture.run Fixture.no_status
      (TGetProjectItems "acme" 7 50 None (Some "Status") (Some "Done") None) in
  let failing := Fixture.run Fixture.lookup_fails
      (TGetProjectItems "acme" 7 50 None (Some "Status") (Some "Done") None) in
  let later := Fixture.run Fixture.no_status
      (TGetProjectItems "acme" 7 50 None (Some "Status") (Some "Done")
         (Some "Y3Vyc29yOnYyOpEC")) in
  calls_of (trace_of first)
  = [ CGetProjectItems "acme" 7 50 None (Some "Status") (Some "Done") None;
      CGetProjectFieldsDetails "acme" 7 ]
  /\ (trace_of failing
      = [ items_returned "acme" 7 50 None (Some "Status") (Some "Done") None;
          fields_looked_up "acme" 7
            (Some (GitHubClientError "API rate limit exceeded")) ]
      /\ snd (fst failing) = 2%nat)
  /\ later
     = (Ok "No more items found in project #7 for acme (Filter: Status = 'Done')",
        1%nat,
        [ items_returned "acme" 7 50 None (Some "Status") (Some "Done")
            (Some "Y3Vyc29yOnYyOpEC") ]).
Proof.
  cbv zeta. split; [|split].
  - apply (field_lookup_only_on_first_page (B := Fixture.builtins)
             (Fixture.scripted Fixture.no_status) "acme" 7 50 None
             (Some "Status") (Some "Done") None 0%nat 1%nat
             Fixture.empty_page); reflexivity.
  - apply (proj1 (proj2 (proj2
             (field_lookup_only_on_first_page (B := Fixture.builtins)
                (Fixture.scripted Fixture.lookup_fails) "acme" 7 50 None
                (Some "Status") (Some "Done") None 0%nat 1%nat
                Fixture.empty_page eq_refl eq_refl eq_refl eq_refl
                eq_refl)))).
    reflexivity.
  - apply (field_lookup_only_on_first_page (B := Fixture.builtins)
             (Fixture.scripted Fixture.no_status) "acme" 7 50 None
             (Some "Status") (Some "Done") (Some "Y3Vyc29yOnYyOpEC")
             0%nat 1%nat Fixture.empty_page); reflexivity.
Defined.

(** C7.  On a first page where a custom-field filter found nothing, the
    filter's field name is compared with the project's field names after
    lowering both, and the first entry of the field mapping that matches,
    in the mapping's order, is the one reported: the text shows its type
    and its option names (single-select) or iteration names (iteration);
    for a first match of another type the text has no debug block.
    Entries after the first match, also ones that match up to case, play
    no part. *)
Theorem zero_match_reports_first_match
    {B : PyBuiltins} {W : Type} (cl : Client.t W)
    (owner : string) (project_number limit : Z)
    (state cursor : option string) (name value : string)
    (w w1 w2 : W) (page : ItemsPage)
    (pre post : list (string * FieldDetails))
    (fname : string) (finfo : FieldDetails) :
  truthy state = false ->
  truthy_str name = true ->
  truthy_str value = true ->
  truthy cursor = false ->
  Client.get_project_items cl owner project_number limit state
    (Some name) (Some value) cursor w = (Ok page, w1) ->
  page_items page = [] ->
  Client.get_project_fields_details cl owner project_number w1
  = (Ok (pre ++ (fname, finfo) :: post)%list, w2) ->
  (forall entry, In entry pre -> str_lower (fst entry) <> str_lower name) ->
  str_lower fname = str_lower name ->
  let r := get_project_items cl owner project_number limit state
             (Some name) (Some value) cursor w in
  let head := "No items found in project #" ++ str_int project_number
              ++ " for " ++ owner
              ++ " (Filter: " ++ name ++ " = '" ++ value ++ "')" in
  let trace := [ items_returned owner project_number limit state
                   (Some name) (Some value) cursor;
                 fields_looked_up owner project_number None ] in
  (fd_type finfo = Some "ProjectV2SingleSelectField" ->
   r = (Ok (head ++ nl ++ nl
            ++ "Debug info:" ++ nl
            ++ "- Found field '" ++ name
            ++ "' with type 'ProjectV2SingleSelectField'" ++ nl
            ++ "- Available options: "
            ++ repr_str_list (map fst (get_default (fd_options finfo) []))
            ++ nl ++ debug_note limit value),
        w2, trace))
  /\
  (fd_type finfo = Some "ProjectV2IterationField" ->
   r = (Ok (head ++ nl ++ nl
            ++ "Debug info:" ++ nl
            ++ "- Found field '" ++ name
            ++ "' with type 'ProjectV2IterationField'" ++ nl
            ++ "- Available iterations: "
            ++ repr_str_list (map fst (get_default (fd_iterations finfo) []))
            ++ nl ++ debug_note limit value),
        w2, trace))
  /\
  (fd_type finfo <> Some "ProjectV2SingleSelectField" ->
   fd_type finfo <> Some "ProjectV2IterationField" ->
   r = (Ok (head ++ nl ++ nl
            ++ "Note: If the project has many items, try increasing the limit parameter to search more thoroughly."),
        w2, trace)).
Proof.
  intros Hstate Hname Hvalue Hcursor Hitems Hempty Hfields Hpre Hhit
         r head trace.
  subst r.
  rewrite (get_project_items_zero_items cl owner project_number limit
             state (Some name) (Some value) cursor w w1 page)
    by (try rewrite Hstate; auto).
  rewrite Hcursor. cbn [truthy]. rewrite Hname, Hvalue. cbn [andb fmt_opt].
  rewrite (zero_match_debug_ok cl owner project_number limit name value _
             w1 w2 _ Hfields).
  rewrite (find_field_first pre post fname name finfo Hpre Hhit).
  unfold filter_desc_of. rewrite Hstate. cbn [truthy].
  rewrite Hname, Hvalue. cbn [andb fmt_opt].
  subst head. split; [|split].
  - intros Htype. unfold fd_truthy. rewrite Htype.
    destruct (fd_id finfo); normalize_text; reflexivity.
  - intros Htype. unfold fd_truthy. rewrite Htype.
    destruct (fd_id finfo); normalize_text; reflexivity.
  - intros Hss Hit. unfold no_items_text. normalize_text.
    destruct (fd_truthy finfo); [|reflexivity].
    cbv zeta.
    destruct (String.eqb_spec (get_default (fd_type finfo) "Unknown")
                "ProjectV2SingleSelectField") as [E|_].
    { exfalso. destruct (fd_type finfo) as [ty|]; simpl in E;
        [apply Hss; rewrite E; reflexivity | discriminate]. }
    destruct (String.eqb_spec (get_default (fd_type finfo) "Unknown")
                "ProjectV2IterationField") as [E|_].
    { exfalso. destruct (fd_type finfo) as [ty|]; simpl in E;
        [apply Hit; rewrite E; reflexivity | discriminate]. }
    reflexivity.
Qed.

Lemma zero_match_reports_first_match_witness :
  Fixture.run Fixture.two_status
    (TGetProjectItems "acme" 7 50 None (Some "STATUS") (Some "Blocked") None)
  = (Ok ("No items found in project #7 for acme (Filter: STATUS = 'Blocked')"
         ++ nl ++ nl
         ++ "Debug info:" ++ nl
         ++ "- Found field 'STATUS' with type 'ProjectV2SingleSelectField'"
         ++ nl
         ++ "- Available options: ['Todo', 'Done']" ++ nl
         ++ "- Note: Searched up to 50 items. If the project has many items, some 'Blocked' items might be beyond this scope."
         ++ nl
         ++ "- Tip: Try increasing the limit parameter or check if the field value spelling is correct."),
     2%nat,
     [ items_returned "acme" 7 50 None (Some "STATUS") (Some "Blocked") None;
       fields_looked_up "acme" 7 None ]).
Proof.
  apply (proj1 (zero_match_reports_first_match (B := Fixture.builtins)
           (Fixture.scripted Fixture.two_status) "acme" 7 50 None None
           "STATUS" "Blocked" 0%nat 1%nat 2%nat Fixture.empty_page
           [("Priority", Fixture.text_field)]
           [("Status", Fixture.iteration [("Sprint 1", "i1")])]
           "status"
           (Fixture.single_select [("Todo", "o1"); ("Done", "o2")])
           eq_refl eq_refl eq_refl eq_refl eq_refl eq_refl eq_refl
           ltac:(intros entry [<-|[]]; discriminate) eq_refl)).
  reflexivity.
Defined.

(** C2, as the code has it.  On a first page where a custom-field filter
    found nothing and no field of the project matches the filter's field
    name up to case, the text is the closing [return] of the zero-items
    branch: the no-items line with the filter description and the note
    about the limit.  It says nothing about the field. *)
Theorem zero_match_unknown_field_gets_generic_text
    {B : PyBuiltins} {W : Type} (cl : Client.t W)
    (owner : string) (project_number limit : Z)
    (state cursor : option string) (name value : string)
    (w w1 w2 : W) (page : ItemsPage)
    (fields : list (string * FieldDetails)) :
  truthy state = false ->
  truthy_str name = true ->
  truthy_str value = true ->
  truthy cursor = false ->
  Client.get_project_items cl owner project_number limit state
    (Some name) (Some value) cursor w = (Ok page, w1) ->
  page_items page = [] ->
  Client.get_project_fields_details cl owner project_number w1
  = (Ok fields, w2) ->
  (forall entry, In entry fields ->
     str_lower (fst entry) <> str_lower name) ->
  get_project_items cl owner project_number limit state
    (Some name) (Some value) cursor w
  = (Ok ("No items found in project #" ++ str_int project_number
         ++ " for " ++ owner
         ++ " (Filter: " ++ name ++ " = '" ++ value ++ "')" ++ nl ++ nl
         ++ "Note: If the project has many items, try increasing the limit parameter to search more thoroughly."),
     w2,
     [ items_returned owner project_number limit state
         (Some name) (Some value) cursor;
       fields_looked_up owner project_number None ]).
Proof.
  intros Hstate Hname Hvalue Hcursor Hitems Hempty Hfields Hnone.
  rewrite (get_project_items_zero_items cl owner project_number limit
             state (Some name) (Some value) cursor w w1 page)
    by (try rewrite Hstate; auto).
  rewrite Hcursor. cbn [truthy]. rewrite Hname, Hvalue. cbn [andb fmt_opt].
  rewrite (zero_match_debug_ok cl owner project_number limit name value _
             w1 w2 _ Hfields).
  apply find_field_none in Hnone. rewrite Hnone.
  unfold filter_desc_of, no_items_text. rewrite Hstate. cbn [truthy].
  rewrite Hname, Hvalue. cbn [andb fmt_opt].
  normalize_text. reflexivity.
Qed.

Lemma zero_match_unknown_field_gets_generic_text_witness :
  Fixture.run Fixture.no_status
    (TGetProjectItems "acme" 7 50 None (Some "Status") (Some "Done") None)
  = (Ok ("No items found in project #7 for acme (Filter: Status = 'Done')"
         ++ nl ++ nl
         ++ "Note: If the project has many items, try increasing the limit parameter to search more thoroughly."),
     2%nat,
     [ items_returned "acme" 7 50 None (Some "Status") (Some "Done") None;
       fields_looked_up "acme" 7 None ]).
Proof.
  apply (zero_match_unknown_field_gets_generic_text (B := Fixture.builtins)
           (Fixture.scripted Fixture.no_status) "acme" 7 50 None None
           "Status" "Done" 0%nat 1%nat 2%nat Fixture.empty_page
           [("Priority", Fixture.single_select [("High", "o1")])]
           eq_refl eq_refl eq_refl eq_refl eq_refl eq_refl eq_refl
           ltac:(intros entry [<-|[]]; discriminate)).
Defined.

(** C2, as stated, fails: a filter on [Status] gets the same text from a
    project that has no such field, from a project whose [Status] field is
    a plain text field, and from a project whose field lookup failed; the
    text does not say that the field was not found. *)
Lemma unknown_field_text_is_not_distinguished :
  let call := TGetProjectItems "acme" 7 50 None (Some "Status") (Some "Done")
                None in
  let missing := Fixture.run Fixture.no_status call in
  let present := Fixture.run Fixture.text_status call in
  let failed := Fixture.run Fixture.lookup_fails call in
  find_field (B := Fixture.builtins)
    [("Priority", Fixture.single_select [("High", "o1")])] "Status" = None
  /\ find_field (B := Fixture.builtins)
       [("Status", Fixture.text_field)] "Status" = Some Fixture.text_field
  /\ returned missing
     = Some ("No items found in project #7 for acme (Filter: Status = 'Done')"
             ++ nl ++ nl
             ++ "Note: If the project has many items, try increasing the limit parameter to search more thoroughly.")
  /\ returned present = returned missing
  /\ returned failed = returned missing
  /\ option_map (mentions "not found") (returned missing) = Some false
  /\ option_map (mentions "Debug info") (returned missing) = Some false.
Proof. cbv zeta. repeat split; reflexivity. Qed.

(** *** Value coercion of [update_project_item_field] *)

(** C8.  [update_project_item_field] calls the client's
    [update_project_item_field] once, and the value it passes comes from
    the string [field_value] by numeric coercion: the integer that
    [float(field_value)] has the value of when it has no fractional part,
    that float when it has the value of no integer (a fractional part, an
    infinity, not a number), and [field_value] itself when [float] rejects
    it.  The run is that call's: it ends in the world the client left
    after being handed this value, and answers with the success text, or
    with the error text for a client error. *)
Theorem update_project_item_field_forwards_coerced_value
    {B : PyBuiltins} {W : Type} (cl : Client.t W)
    (owner : string) (project_number : Z)
    (item_id field_id field_value : string) (w : W) :
  exists v : value,
    calls_of (trace_of (update_project_item_field cl owner project_number
                          item_id field_id field_value w))
    = [CUpdateProjectItemField owner project_number item_id field_id v]
    /\ (forall x, float_of_str field_value = Some x ->
          is_integer x = true -> v = VInt (int_of_float x))
    /\ (forall x, float_of_str field_value = Some x ->
          is_integer x = false -> v = VFloat x)
    /\ (float_of_str field_value = None -> v = VStr field_value)
    /\ (forall x n, float_of_str field_value = Some x ->
          (v = VInt n <-> float_equals_int x n))
    /\ (let sent := Client.update_project_item_field cl owner project_number
                      item_id field_id v w in
        update_project_item_field cl owner project_number item_id field_id
          field_value w
        = (match fst sent with
           | Ok _ =>
               Ok ("Successfully updated field for item in project #"
                   ++ str_int project_number ++ "!" ++ nl
                   ++ "Item ID: " ++ item_id ++ nl
                   ++ "Field ID: " ++ field_id ++ nl
                   ++ "Value Set: " ++ field_value)
           | Raise e =>
               if is_client_error e
               then Ok ("Error: Could not update field value. Details: "
                        ++ exn_msg e)
               else Raise e
           end,
           snd sent,
           [ {| ev_call := CUpdateProjectItemField owner project_number
                             item_id field_id v;
                ev_raised := raised_of (fst sent) |} ])).
Proof.
  exists (parsed_value field_value).
  split; [|split; [|split; [|split; [|split]]]].
  - unfold update_project_item_field, try_except, bind, await.
    destruct (Client.update_project_item_field cl owner project_number
                item_id field_id (parsed_value field_value) w)
      as [[[]|e] w1]; [reflexivity|].
    destruct (is_client_error e); reflexivity.
  - intros x Hx Hint. unfold parsed_value. rewrite Hx, Hint. reflexivity.
  - intros x Hx Hint. unfold parsed_value. rewrite Hx, Hint. reflexivity.
  - intros Hx. unfold parsed_value. rewrite Hx. reflexivity.
  - intros x n Hx. unfold parsed_value. rewrite Hx.
    destruct (is_integer x) eqn:Hint; split.
    + intros [= <-]. apply int_of_float_value, Hint.
    + intros Hn. now rewrite (float_equals_int_unique x n Hn).
    + discriminate.
    + intros Hn. exfalso. exact (fractional_float_has_no_int x n Hint Hn).
  - cbv zeta. unfold update_project_item_field, try_except, bind, await.
    destruct (Client.update_project_item_field cl owner project_number
                item_id field_id (parsed_value field_value) w)
      as [[[]|e] w1]; [reflexivity|].
    cbn [fst snd raised_of]. destruct (is_client_error e); reflexivity.
Qed.

Lemma update_project_item_field_forwards_coerced_value_witness :
  calls_of (trace_of (Fixture.run Fixture.healthy
              (TUpdateProjectItemField "acme" 7 "PVTI_abc" "PVTF_1" "42")))
  = [CUpdateProjectItemField "acme" 7 "PVTI_abc" "PVTF_1" (VInt 42)]
  /\ calls_of (trace_of (Fixture.run Fixture.healthy
              (TUpdateProjectItemField "acme" 7 "PVTI_abc" "PVTF_1" "1.5")))
     = [CUpdateProjectItemField "acme" 7 "PVTI_abc" "PVTF_1"
          (VFloat (S754_finite false 3 (-1)))]
  /\ calls_of (trace_of (Fixture.run Fixture.healthy
              (TUpdateProjectItemField "acme" 7 "PVTI_abc" "PVTF_1"
                 "2025-01-01")))
     = [CUpdateProjectItemField "acme" 7 "PVTI_abc" "PVTF_1"
          (VStr "2025-01-01")]
  /\ Fixture.run Fixture.healthy
       (TUpdateProjectItemField "acme" 7 "PVTI_abc" "PVTF_1" "42")
     = (Ok ("Successfully updated field for item in project #7!" ++ nl
            ++ "Item ID: PVTI_abc" ++ nl
            ++ "Field ID: PVTF_1" ++ nl
            ++ "Value Set: 42"),
        1%nat,
        [ {| ev_call := CUpdateProjectItemField "acme" 7 "PVTI_abc" "PVTF_1"
                          (VInt 42);
             ev_raised := None |} ]).
Proof.
  split; [|split; [|split]].
  - destruct (update_project_item_field_forwards_coerced_value
                (B := Fixture.builtins) (Fixture.scripted Fixture.healthy)
                "acme" 7 "PVTI_abc" "PVTF_1" "42" 0%nat)
      as [v [Hcalls [Hint _]]].
    rewrite (Hint (S754_finite false 42 0) eq_refl eq_refl) in Hcalls.
    exact Hcalls.
  - destruct (update_project_item_field_forwards_coerced_value
                (B := Fixture.builtins) (Fixture.scripted Fixture.healthy)
                "acme" 7 "PVTI_abc" "PVTF_1" "1.5" 0%nat)
      as [v [Hcalls [_ [Hfrac _]]]].
    rewrite (Hfrac (S754_finite false 3 (-1)) eq_refl eq_refl) in Hcalls.
    exact Hcalls.
  - destruct (update_project_item_field_forwards_coerced_value
                (B := Fixture.builtins) (Fixture.scripted Fixture.healthy)
                "acme" 7 "PVTI_abc" "PVTF_1" "2025-01-01" 0%nat)
      as [v [Hcalls [_ [_ [Hstr _]]]]].
    rewrite (Hstr eq_refl) in Hcalls.
    exact Hcalls.
  - destruct (update_project_item_field_forwards_coerced_value
                (B := Fixture.builtins) (Fixture.scripted Fixture.healthy)
                "acme" 7 "PVTI_abc" "PVTF_1" "42" 0%nat)
      as [v [_ [Hint [_ [_ [_ Hrun]]]]]].
    rewrite (Hint (S754_finite false 42 0) eq_refl eq_refl) in Hrun.
    exact Hrun.
Defined.

(** *** Client errors never escape a tool *)



(** A loop of quiet bodies is quiet. *)
Lemma for_each_quiet {W A : Type} (body : string -> A -> M W string)
    (l : list A) :
  (forall acc x, quiet (body acc x)) ->
  forall acc, quiet (for_each l body acc).
Proof.
  intros Hbody. induction l as [|x rest IH]; intros acc w; simpl.
  - exists (Ok acc). split; [reflexivity | discriminate].
  - unfold bind. destruct (Hbody acc x w) as [r [-> Hr]].
    destruct r as [acc1|e].
    + destruct (IH acc1 w) as [r2 [-> Hr2]]. exists r2. split; auto.
    + exists (Raise e). split; auto.
Qed.

(** Formatting a field reads the dict only: it can raise [KeyError] and
    nothing else. *)
Lemma format_field_quiet {W : Type} (result : string)
    (entry : string * FieldDetails) :
  quiet (format_field (W := W) result entry).
Proof.
  intros w. unfold format_field, bind, getitem, ret, raise.
  destruct (fd_id (snd entry)); [|eexists; split; [reflexivity|]].
  - destruct (fd_type (snd entry)); eexists; (split; [reflexivity|]).
    + discriminate.
    + intros e [= <-]. reflexivity.
  - intros e [= <-]. reflexivity.
Qed.

(** Takes the run of a tool apart: the monad is unfolded, and every test
    and every client call the run is waiting on is split into its cases,
    an exception into its four classes. *)
Ltac split_run :=
  repeat first
    [ progress cbv beta iota zeta
        delta [ret raise getitem try_except bind await set_dates_step
               zero_match_debug is_client_error is_client_or_value_error
               is_exception]
    | match goal with
      | |- context [match ?x with _ => _ end] =>
          lazymatch x with
          | context [match _ with _ => _ end] => fail
          | _ => destruct x
          end
      end ].






(* ------------------------------------------------------------------ *)
(** ** Further properties of the tools *)

(** *** How a tool uses the client *)

Lemma raise_is_last_spec (trace pre post : list event) (ev : event) :
  raise_is_last trace = true ->
  trace = (pre ++ ev :: post)%list ->
  ev_raised ev <> None ->
  post = [].
Proof.
  revert trace. induction pre as [|p pre IH]; intros trace Hlast -> Hraised.
  - simpl in Hlast. destruct (ev_raised ev); [|contradiction].
    destruct post; [reflexivity | discriminate].
  - simpl in Hlast. destruct (ev_raised p).
    + destruct pre; discriminate.
    + exact (IH _ Hlast eq_refl Hraised).
Qed.

(** What [get_project_fields] does with the one call it makes: a raised
    client error becomes the error text, any other exception propagates,
    and a returned mapping is formatted without another call. *)
Lemma get_project_fields_run {B : PyBuiltins} {W : Type} (cl : Client.t W)
    (owner : string) (project_number : Z) (w : W) :
  match Client.get_project_fields_details cl owner project_number w with
  | (Ok fields, w1) =>
      exists r,
        get_project_fields cl owner project_number w
        = (r, w1, [fields_looked_up owner project_number None])
  | (Raise e, w1) =>
      get_project_fields cl owner project_number w
      = (if is_client_error e
         then Ok ("Error: Could not get fields for project " ++ owner ++ "/"
                  ++ str_int project_number ++ ". Details: " ++ exn_msg e)
         else Raise e,
         w1, [fields_looked_up owner project_number (Some e)])
  end.
Proof.
  unfold get_project_fields, try_except, bind, await.
  destruct (Client.get_project_fields_details cl owner project_number w)
    as [[fields|e] w1]; cbv beta iota.
  - destruct (nonempty fields); cbn [negb]; cbv iota.
    + destruct (for_each_quiet format_field fields
                  (fun acc x => format_field_quiet acc x)
                  ("Fields for project #" ++ str_int project_number
                   ++ " in " ++ owner ++ ":" ++ nl ++ nl) w1)
        as [r [-> Hr]].
      destruct r as [text|e]; [eexists; reflexivity|].
      specialize (Hr e eq_refl).
      destruct e; try discriminate Hr; eexists; reflexivity.
    + eexists. reflexivity.
  - destruct (is_client_error e); reflexivity.
Qed.

(** Brings the run of [get_project_fields] into the form of
    [get_project_fields_run], case by case. *)
Ltac split_fields_run cl owner project_number w :=
  let H := fresh "Hrun" in
  pose proof (get_project_fields_run cl owner project_number w) as H;
  destruct (Client.get_project_fields_details cl owner project_number w)
    as [[?fields|[?msg|?msg|?msg|?msg]] ?w];
  [ destruct H as [?r H] | | | | ]; rewrite H; clear H;
  cbn [is_client_error].

(** X1.  Once a client call has raised, a tool makes no further client
    call: in the trace of every run, an event that raised is the last. *)
Theorem raising_call_is_last
    {B : PyBuiltins} {W : Type} (cl : Client.t W) (t : tool_call) (w : W)
    (pre post : list event) (ev : event) :
  trace_of (run_tool cl t w) = (pre ++ ev :: post)%list ->
  ev_raised ev <> None ->
  post = [].
Proof.
  apply raise_is_last_spec.
  destruct t; unfold run_tool.
  - unfold list_projects. split_run; reflexivity.
  - split_fields_run cl owner project_number w; reflexivity.
  - unfold get_project_items. split_run; reflexivity.
  - unfold create_issue. split_run; reflexivity.
  - unfold add_issue_to_project. split_run; reflexivity.
  - unfold set_project_item_dates. split_run; reflexivity.
  - unfold add_issue_to_project_with_dates. split_run; reflexivity.
  - unfold create_issue_and_add_to_project. split_run; reflexivity.
  - unfold update_project_item_field. split_run; reflexivity.
  - unfold create_draft_issue. split_run; reflexivity.
  - unfold delete_project_item. split_run; reflexivity.
Qed.

Lemma raising_call_is_last_witness :
  trace_of (Fixture.run Fixture.add_fails
              (TCreateIssueAndAddToProject "acme" "web" 999 "Fix login"
                 EmptyString None (Some "2025-01-01") None "Start Date"
                 "End Date"))
  = ([ {| ev_call := CCreateIssue "acme" "web" "Fix login" EmptyString None;
          ev_raised := None |} ]
     ++ {| ev_call := CAddIssueToProject "acme" 999 "acme" "web" (Some 42%Z);
           ev_raised := Some (GitHubClientError
             "Could not resolve to a ProjectV2 with the number 999.") |}
     :: [])%list
  /\ @nil event = [].
Proof.
  split; [reflexivity|].
  apply (raising_call_is_last (B := Fixture.builtins)
           (Fixture.scripted Fixture.add_fails)
           (TCreateIssueAndAddToProject "acme" "web" 999 "Fix login"
              EmptyString None (Some "2025-01-01") None "Start Date"
              "End Date") 0%nat
           [ {| ev_call := CCreateIssue "acme" "web" "Fix login" EmptyString
                             None;
                ev_raised := None |} ]
           []
           {| ev_call := CAddIssueToProject "acme" 999 "acme" "web"
                           (Some 42%Z);
              ev_raised := Some (GitHubClientError
                "Could not resolve to a ProjectV2 with the number 999.") |}).
  - reflexivity.
  - discriminate.
Defined.

(** X2.  A tool makes at most as many client calls as its longest path
    awaits: three for [create_issue_and_add_to_project], two for
    [get_project_items] and [add_issue_to_project_with_dates], one for
    every other tool. *)
Theorem client_calls_within_budget
    {B : PyBuiltins} {W : Type} (cl : Client.t W) (t : tool_call) (w : W) :
  (length (trace_of (run_tool cl t w)) <= call_budget t)%nat.
Proof.
  destruct t; unfold run_tool.
  - unfold list_projects. split_run; simpl; lia.
  - split_fields_run cl owner project_number w; simpl; lia.
  - unfold get_project_items. split_run; simpl; lia.
  - unfold create_issue. split_run; simpl; lia.
  - unfold add_issue_to_project. split_run; simpl; lia.
  - unfold set_project_item_dates. split_run; simpl; lia.
  - unfold add_issue_to_project_with_dates. split_run; simpl; lia.
  - unfold create_issue_and_add_to_project. split_run; simpl; lia.
  - unfold update_project_item_field. split_run; simpl; lia.
  - unfold create_draft_issue. split_run; simpl; lia.
  - unfold delete_project_item. split_run; simpl; lia.
Qed.

(** Closes the propagation claim for one finished run. *)
Ltac close_propagation :=
  intros ev e Hin Hraised Hinner Hhandled;
  unfold trace_of in Hin; simpl in Hin;
  repeat match goal with
         | H : _ \/ _ |- _ => destruct H as [<-|H]
         | H : False |- _ => contradiction
         end;
  cbn [ev_raised] in Hraised;
  first [ discriminate Hraised | injection Hraised as <- ];
  cbn [handled inner_catches ev_call is_client_error
       is_client_or_value_error is_exception] in Hhandled, Hinner;
  try discriminate Hhandled; try discriminate Hinner;
  reflexivity.

(** X3.  An exception of a client call that neither the inner [try]
    around that call (if there is one) nor the tool's outer [except]
    names leaves the tool as it was raised: for instance a [ValueError]
    of [create_issue], or a [KeyError] of the date step. *)
Theorem unhandled_exception_propagates
    {B : PyBuiltins} {W : Type} (cl : Client.t W) (t : tool_call) (w : W)
    (ev : event) (e : exn) :
  In ev (trace_of (run_tool cl t w)) ->
  ev_raised ev = Some e ->
  inner_catches t (ev_call ev) e = false ->
  handled t e = false ->
  fst (fst (run_tool cl t w)) = Raise e.
Proof.
  revert ev e.
  destruct t; unfold run_tool.
  - unfold list_projects. split_run; close_propagation.
  - split_fields_run cl owner project_number w; close_propagation.
  - unfold get_project_items. split_run; close_propagation.
  - unfold create_issue. split_run; close_propagation.
  - unfold add_issue_to_project. split_run; close_propagation.
  - unfold set_project_item_dates. split_run; close_propagation.
  - unfold add_issue_to_project_with_dates. split_run; close_propagation.
  - unfold create_issue_and_add_to_project. split_run; close_propagation.
  - unfold update_project_item_field. split_run; close_propagation.
  - unfold create_draft_issue. split_run; close_propagation.
  - unfold delete_project_item. split_run; close_propagation.
Qed.

Lemma unhandled_exception_propagates_witness :
  Fixture.run Fixture.create_rejects
    (TCreateIssue "acme" "web" EmptyString EmptyString None)
  = (Raise (ValueError "title must not be empty"), 1%nat,
     [ {| ev_call := CCreateIssue "acme" "web" EmptyString EmptyString None;
          ev_raised := Some (ValueError "title must not be empty") |} ]).
Proof.
  pose proof (unhandled_exception_propagates (B := Fixture.builtins)
                (Fixture.scripted Fixture.create_rejects)
                (TCreateIssue "acme" "web" EmptyString EmptyString None)
                0%nat
                {| ev_call := CCreateIssue "acme" "web" EmptyString
                                EmptyString None;
                   ev_raised := Some (ValueError "title must not be empty") |}
                (ValueError "title must not be empty")
                (or_introl eq_refl) eq_refl eq_refl eq_refl) as Hraise.
  unfold Fixture.run.
  destruct (run_tool (Fixture.scripted Fixture.create_rejects)
              (TCreateIssue "acme" "web" EmptyString EmptyString None) 0%nat)
    as [[r w1] trace] eqn:Hrun.
  simpl in Hraise. subst r.
  vm_compute in Hrun. injection Hrun as <- <-. reflexivity.
Defined.

(** *** Listing projects and fields *)

(** A loop that appends one text per element gives the start text
    followed by the elements' texts in order. *)
Lemma fold_left_append {A : Type} (g : A -> string) (l : list A)
    (acc : string) :
  fold_left (fun result x => result ++ g x) l acc
  = acc ++ concat_all (map g l).
Proof.
  revert acc. induction l as [|x l IH]; intros acc; simpl.
  - now rewrite append_nil_r.
  - rewrite IH. now rewrite append_assoc.
Qed.

(** X4.  [list_projects] makes one call; for an empty list it says that
    no projects were found, otherwise it writes the heading and one block
    per project, in the client's order, none dropped or repeated. *)
Theorem list_projects_lists_every_project
    {W : Type} (cl : Client.t W) (owner : string)
    (w w1 : W) (projects : list Project) :
  Client.get_projects cl owner w = (Ok projects, w1) ->
  list_projects cl owner w
  = (Ok (match projects with
         | [] => "No projects found for " ++ owner
         | _ :: _ => "Projects for " ++ owner ++ ":" ++ nl ++ nl
                     ++ concat_all (map project_block projects)
         end),
     w1, [ {| ev_call := CGetProjects owner; ev_raised := None |} ]).
Proof.
  intros Hget. unfold list_projects, try_except, bind, await.
  rewrite Hget. cbv beta iota.
  destruct projects as [|p rest]; [reflexivity|].
  cbn [nonempty negb]. cbv iota. unfold ret.
  rewrite (fold_left_append project_block (p :: rest)).
  normalize_text. reflexivity.
Qed.

Lemma list_projects_lists_every_project_witness :
  list_projects
    (Fixture.with_projects [Fixture.roadmap; Fixture.backlog] Fixture.healthy)
    "acme" 0%nat
  = (Ok ("Projects for acme:" ++ nl ++ nl
         ++ "- ID: PVT_1" ++ nl ++ "  Number: 7" ++ nl
         ++ "  Title: Roadmap" ++ nl
         ++ "  URL: https://github.com/orgs/acme/projects/7" ++ nl ++ nl
         ++ "- ID: PVT_2" ++ nl ++ "  Number: 12" ++ nl
         ++ "  Title: Backlog" ++ nl
         ++ "  URL: https://github.com/orgs/acme/projects/12" ++ nl ++ nl),
     1%nat, [ {| ev_call := CGetProjects "acme"; ev_raised := None |} ]).
Proof.
  apply (list_projects_lists_every_project
           (Fixture.with_projects [Fixture.roadmap; Fixture.backlog]
              Fixture.healthy)
           "acme" 0%nat 1%nat [Fixture.roadmap; Fixture.backlog]).
  reflexivity.
Defined.

(** A field whose dict has [id] and [type] adds its block and nothing
    else happens. *)
Lemma format_field_complete {W : Type} (result : string)
    (entry : string * FieldDetails) (w : W) :
  has_id_and_type (snd entry) = true ->
  format_field result entry w = (Ok (result ++ field_block entry), w, []).
Proof.
  unfold has_id_and_type, format_field, field_block, bind, getitem, ret.
  destruct (fd_id (snd entry)) as [id|]; [|discriminate].
  destruct (fd_type (snd entry)) as [type|]; [|discriminate].
  intros _. cbn [fmt_opt]. cbv beta iota zeta.
  destruct (String.eqb type "ProjectV2SingleSelectField"
            && truthy_list (fd_options (snd entry))).
  - unfold get_default.
    rewrite (fold_left_append option_line). cbn [app].
    normalize_text. reflexivity.
  - cbn [app]. normalize_text. reflexivity.
Qed.

(** A field whose dict lacks [id] or [type] raises the [KeyError] of the
    first missing key. *)
Lemma format_field_incomplete {W : Type} (result : string)
    (entry : string * FieldDetails) (w : W) :
  has_id_and_type (snd entry) = false ->
  format_field result entry w
  = (Raise (missing_key_error (snd entry)), w, []).
Proof.
  unfold has_id_and_type, format_field, missing_key_error, bind, getitem,
    ret, raise.
  destruct (fd_id (snd entry)) as [id|]; [|reflexivity].
  destruct (fd_type (snd entry)) as [type|]; [discriminate|reflexivity].
Qed.

(** The field loop over entries that all have [id] and [type]. *)
Lemma for_each_format_field_complete {W : Type}
    (fields : list (string * FieldDetails)) (acc : string) (w : W) :
  forallb (fun entry => has_id_and_type (snd entry)) fields = true ->
  for_each fields format_field acc w
  = (Ok (acc ++ concat_all (map field_block fields)), w, []).
Proof.
  revert acc. induction fields as [|entry rest IH]; intros acc Hall; simpl.
  - unfold ret. now rewrite append_nil_r.
  - simpl in Hall. apply andb_true_iff in Hall. destruct Hall as [He Hrest].
    unfold bind. rewrite (format_field_complete acc entry w He).
    rewrite (IH _ Hrest). now rewrite append_assoc.
Qed.

(** X5.  When every field's dict has [id] and [type],
    [get_project_fields] writes the heading and one block per field in the
    mapping's order; a block lists options only for a single-select field
    that has some. *)
Theorem get_project_fields_lists_every_field
    {W : Type} (cl : Client.t W)
    (owner : string) (project_number : Z) (w w1 : W)
    (fields : list (string * FieldDetails)) :
  Client.get_project_fields_details cl owner project_number w
  = (Ok fields, w1) ->
  forallb (fun entry => has_id_and_type (snd entry)) fields = true ->
  get_project_fields cl owner project_number w
  = (Ok (match fields with
         | [] => "No fields found for project #" ++ str_int project_number
                 ++ " in " ++ owner
         | _ :: _ => "Fields for project #" ++ str_int project_number
                     ++ " in " ++ owner ++ ":" ++ nl ++ nl
                     ++ concat_all (map field_block fields)
         end),
     w1, [fields_looked_up owner project_number None]).
Proof.
  intros Hget Hall. unfold get_project_fields, try_except, bind, await.
  rewrite Hget. cbv beta iota.
  destruct fields as [|entry rest]; [reflexivity|].
  cbn [nonempty negb]. cbv iota.
  rewrite (for_each_format_field_complete (entry :: rest) _ w1 Hall).
  normalize_text. reflexivity.
Qed.

Lemma get_project_fields_lists_every_field_witness :
  Fixture.run Fixture.two_status (TGetProjectFields "acme" 7)
  = (Ok ("Fields for project #7 in acme:" ++ nl ++ nl
         ++ "- Name: Priority" ++ nl ++ "  ID: PVTF_1" ++ nl
         ++ "  Type: ProjectV2Field" ++ nl ++ nl
         ++ "- Name: status" ++ nl ++ "  ID: PVTSSF_1" ++ nl
         ++ "  Type: ProjectV2SingleSelectField" ++ nl
         ++ "  Options (Name: ID):" ++ nl
         ++ "    - Todo: o1" ++ nl ++ "    - Done: o2" ++ nl ++ nl
         ++ "- Name: Status" ++ nl ++ "  ID: PVTIF_1" ++ nl
         ++ "  Type: ProjectV2IterationField" ++ nl ++ nl),
     1%nat, [fields_looked_up "acme" 7 None]).
Proof.
  apply (get_project_fields_lists_every_field
           (Fixture.scripted Fixture.two_status) "acme" 7 0%nat 1%nat
           [("Priority", Fixture.text_field);
            ("status", Fixture.single_select [("Todo", "o1"); ("Done", "o2")]);
            ("Status", Fixture.iteration [("Sprint 1", "i1")])]);
    reflexivity.
Defined.

(** X6.  The first field whose dict lacks [id] or [type] makes
    [get_project_fields] raise the [KeyError] of the missing key ([id]
    before [type]); the error is not a client error, so it leaves the
    tool, after the one client call was made. *)
Theorem get_project_fields_missing_key_raises
    {W : Type} (cl : Client.t W)
    (owner : string) (project_number : Z) (w w1 : W)
    (pre post : list (string * FieldDetails))
    (entry : string * FieldDetails) :
  Client.get_project_fields_details cl owner project_number w
  = (Ok (pre ++ entry :: post)%list, w1) ->
  forallb (fun entry => has_id_and_type (snd entry)) pre = true ->
  has_id_and_type (snd entry) = false ->
  get_project_fields cl owner project_number w
  = (Raise (missing_key_error (snd entry)), w1,
     [fields_looked_up owner project_number None]).
Proof.
  intros Hget Hpre Hentry.
  unfold get_project_fields, try_except, bind at 1, await.
  rewrite Hget. cbv beta iota.
  assert (Hne : nonempty (pre ++ entry :: post)%list = true)
    by (destruct pre; reflexivity).
  rewrite Hne. cbn [negb]. cbv iota.
  assert (Hloop : forall acc,
            for_each (pre ++ entry :: post)%list format_field acc w1
            = (Raise (missing_key_error (snd entry)), w1, [])).
  { clear Hget Hne. induction pre as [|p pre IH]; intros acc; simpl.
    - unfold bind. rewrite (format_field_incomplete acc entry w1 Hentry).
      reflexivity.
    - simpl in Hpre. apply andb_true_iff in Hpre. destruct Hpre as [Hp Hpre].
      unfold bind at 1. rewrite (format_field_complete acc p w1 Hp).
      rewrite (IH Hpre). reflexivity. }
  rewrite Hloop.
  unfold missing_key_error. destruct (fd_id (snd entry)); reflexivity.
Qed.

Lemma get_project_fields_missing_key_raises_witness :
  Fixture.run Fixture.untyped_field (TGetProjectFields "acme" 7)
  = (Raise (OtherException "'type'"), 1%nat,
     [fields_looked_up "acme" 7 None]).
Proof.
  apply (get_project_fields_missing_key_raises
           (Fixture.scripted Fixture.untyped_field) "acme" 7 0%nat 1%nat
           [("Title", Fixture.text_field)]
           [("Status", Fixture.single_select [("Todo", "o1")])]
           ("Estimate",
            {| fd_id := Some "PVTF_2"; fd_type := None;
               fd_options := None; fd_iterations := None |}));
    reflexivity.
Defined.

(** *** [get_project_items] beyond the debug block *)

(** X7.  A tool makes no client call exactly when one of its two
    validations rejects the input: both filters given to
    [get_project_items], or no date given to [set_project_item_dates].
    Every other invocation reaches the client. *)
Theorem client_called_unless_rejected
    {B : PyBuiltins} {W : Type} (cl : Client.t W) (t : tool_call) (w : W) :
  trace_of (run_tool cl t w) = [] <-> rejected_by_validation t = true.
Proof.
  destruct t; unfold run_tool, rejected_by_validation.
  - unfold list_projects. split_run; split; discriminate.
  - split_fields_run cl owner project_number w; split; discriminate.
  - unfold get_project_items.
    destruct (truthy state && truthy filter_field_name);
      [split; reflexivity|].
    split_run; split; discriminate.
  - unfold create_issue. split_run; split; discriminate.
  - unfold add_issue_to_project. split_run; split; discriminate.
  - unfold set_project_item_dates.
    destruct (truthy start_date || truthy end_date); cbn [negb];
      [|split; reflexivity].
    split_run; split; discriminate.
  - unfold add_issue_to_project_with_dates. split_run; split; discriminate.
  - unfold create_issue_and_add_to_project. split_run; split; discriminate.
  - unfold update_project_item_field. split_run; split; discriminate.
  - unfold create_draft_issue. split_run; split; discriminate.
  - unfold delete_project_item. split_run; split; discriminate.
Qed.




(** [s[:n]] is a prefix of [s] and has [min n (len s)] code points. *)
Lemma slice_to_prefix (n : nat) (s : string) :
  prefix (slice_to n s) s = true.
Proof.
  revert n. induction s as [|c s IH]; intros n; simpl; [reflexivity|].
  destruct (is_continuation c); [|destruct n as [|n]; [reflexivity|]];
    simpl; (destruct (Ascii.ascii_dec c c) as [_|N];
            [apply IH | exfalso; apply N; reflexivity]).
Qed.

Lemma slice_to_code_points (n : nat) (s : string) :
  code_points (slice_to n s) = Nat.min n (code_points s).
Proof.
  revert n. induction s as [|c s IH]; intros n; simpl.
  - now rewrite Nat.min_0_r.
  - destruct (is_continuation c) eqn:Hc; simpl.
    + rewrite Hc. apply IH.
    + destruct n as [|n]; simpl; [reflexivity|].
      rewrite Hc, IH. reflexivity.
Qed.

(** X9.  A draft issue with a non-empty body is shown with a preview of
    the body: its first hundred characters (all of it when it is shorter),
    always followed by three dots, also when nothing was cut. *)
Theorem draft_issue_body_preview
    {B : PyBuiltins} (item : Item) (content : Content) (body : string) :
  it_content item = Some content ->
  c_typename content = Some "DraftIssue" ->
  c_body content = Some body ->
  truthy_str body = true ->
  item_block item
  = "- Item ID: " ++ it_id item ++ nl
    ++ "  Type: Draft Issue ID: " ++ fmt_opt (c_id content) ++ nl
    ++ "  Title: " ++ fmt_opt (c_title content) ++ nl
    ++ "  Body: " ++ slice_to 100 body ++ "..." ++ nl
    ++ field_values_block item ++ nl
  /\ prefix (slice_to 100 body) body = true
  /\ code_points (slice_to 100 body) = Nat.min 100 (code_points body).
Proof.
  intros Hcontent Htype Hbody Htruthy.
  split; [|split; [apply slice_to_prefix | apply slice_to_code_points]].
  unfold item_block, format_item, field_values_block. cbv zeta.
  rewrite Hcontent. cbn [get_default]. rewrite Htype, Hbody.
  cbn [opt_eqb].
  replace (String.eqb "DraftIssue" "Issue") with false by reflexivity.
  replace (String.eqb "DraftIssue" "PullRequest") with false by reflexivity.
  replace (String.eqb "DraftIssue" "DraftIssue") with true by reflexivity.
  cbv iota. cbn [get_default]. rewrite Htruthy.
  destruct (truthy_list (it_fieldValues item)).
  - rewrite (fold_left_append
               (fun fv => "    - " ++ fst fv ++ ": "
                          ++ str_display (snd fv) ++ nl)).
    unfold get_default. normalize_text. reflexivity.
  - normalize_text. reflexivity.
Qed.

Lemma draft_issue_body_preview_witness :
  item_block (B := Fixture.builtins) Fixture.long_draft
  = "- Item ID: PVTI_d2" ++ nl
    ++ "  Type: Draft Issue ID: DI_2" ++ nl
    ++ "  Title: Notes" ++ nl
    ++ "  Body: " ++ Fixture.sixty_e_acute ++ "..." ++ nl ++ nl
  /\ code_points Fixture.sixty_e_acute = 60%nat
  /\ String.length Fixture.sixty_e_acute = 120%nat.
Proof.
  split; [|split; vm_compute; reflexivity].
  pose proof (proj1 (draft_issue_body_preview (B := Fixture.builtins)
                       Fixture.long_draft
                       {| c_typename := Some "DraftIssue"; c_number := None;
                          c_title := Some "Notes"; c_state := None;
                          c_url := None; c_id := Some "DI_2";
                          c_body := Some Fixture.sixty_e_acute;
                          c_repository := None |}
                       Fixture.sixty_e_acute
                       eq_refl eq_refl eq_refl eq_refl)) as Hshown.
  rewrite Hshown. vm_compute. reflexivity.
Defined.

(** X10.  On a first page without items the field lookup is made only for
    a complete custom-field filter.  With a state filter, with no filter,
    or with a field name whose value is missing, the items call is the
    only call and the text is the closing no-items message; in the last
    two cases it carries no filter description, although the field name
    was passed to the client. *)
Theorem zero_items_without_field_filter
    {B : PyBuiltins} {W : Type} (cl : Client.t W)
    (owner : string) (project_number limit : Z)
    (state filter_field_name filter_field_value cursor : option string)
    (w w1 : W) (page : ItemsPage) :
  truthy state && truthy filter_field_name = false ->
  truthy filter_field_name && truthy filter_field_value = false ->
  truthy cursor = false ->
  Client.get_project_items cl owner project_number limit state
    filter_field_name filter_field_value cursor w = (Ok page, w1) ->
  page_items page = [] ->
  get_project_items cl owner project_number limit state filter_field_name
    filter_field_value cursor w
  = (Ok ("No items found in project #" ++ str_int project_number ++ " for "
         ++ owner
         ++ (if truthy state
             then " (State: " ++ str_upper (fmt_opt state) ++ ")"
             else EmptyString)
         ++ nl ++ nl
         ++ "Note: If the project has many items, try increasing the limit parameter to search more thoroughly."),
     w1,
     [ items_returned owner project_number limit state filter_field_name
         filter_field_value cursor ]).
Proof.
  intros Hboth Hfilter Hcursor Hitems Hempty.
  rewrite (get_project_items_zero_items cl owner project_number limit
             state filter_field_name filter_field_value cursor w w1 page
             Hboth Hitems Hempty).
  rewrite Hcursor, Hfilter.
  unfold no_items_text, filter_desc_of. rewrite Hfilter.
  destruct (truthy state); normalize_text; reflexivity.
Qed.

Lemma zero_items_without_field_filter_witness :
  Fixture.run Fixture.healthy
    (TGetProjectItems "acme" 7 50 None (Some "Status") None None)
  = (Ok ("No items found in project #7 for acme" ++ nl ++ nl
         ++ "Note: If the project has many items, try increasing the limit parameter to search more thoroughly."),
     1%nat,
     [ items_returned "acme" 7 50 None (Some "Status") None None ]).
Proof.
  apply (zero_items_without_field_filter (B := Fixture.builtins)
           (Fixture.scripted Fixture.healthy) "acme" 7 50 None
           (Some "Status") None None 0%nat 1%nat Fixture.empty_page);
    reflexivity.
Defined.

(** X11.  A failure of the field lookup never fails the listing: after
    any exception that [except Exception] catches, the text is the
    closing no-items message with the filter description, and the
    exception's message is not part of it.  Only an exception outside
    [Exception] leaves the tool. *)
Theorem zero_match_lookup_failure_is_dropped
    {B : PyBuiltins} {W : Type} (cl : Client.t W)
    (owner : string) (project_number limit : Z)
    (state cursor : option string) (name value : string)
    (w w1 w2 : W) (page : ItemsPage) (e : exn) :
  truthy state = false ->
  truthy_str name = true ->
  truthy_str value = true ->
  truthy cursor = false ->
  Client.get_project_items cl owner project_number limit state
    (Some name) (Some value) cursor w = (Ok page, w1) ->
  page_items page = [] ->
  Client.get_project_fields_details cl owner project_number w1
  = (Raise e, w2) ->
  get_project_items cl owner project_number limit state
    (Some name) (Some value) cursor w
  = (if is_exception e
     then Ok ("No items found in project #" ++ str_int project_number
              ++ " for " ++ owner
              ++ " (Filter: " ++ name ++ " = '" ++ value ++ "')"
              ++ nl ++ nl
              ++ "Note: If the project has many items, try increasing the limit parameter to search more thoroughly.")
     else Raise e,
     w2,
     [ items_returned owner project_number limit state
         (Some name) (Some value) cursor;
       fields_looked_up owner project_number (Some e) ]).
Proof.
  intros Hstate Hname Hvalue Hcursor Hitems Hempty Hfields.
  rewrite (get_project_items_zero_items cl owner project_number limit
             state (Some name) (Some value) cursor w w1 page)
    by (try rewrite Hstate; auto).
  rewrite Hcursor. cbn [truthy]. rewrite Hname, Hvalue. cbn [andb fmt_opt].
  unfold filter_desc_of, no_items_text. rewrite Hstate. cbn [truthy].
  rewrite Hname, Hvalue. cbn [andb fmt_opt].
  destruct (is_exception e) eqn:He.
  - rewrite (zero_match_debug_raise cl owner project_number limit name
               value _ w1 w2 e Hfields He).
    normalize_text. reflexivity.
  - unfold zero_match_debug, try_except, bind, await.
    rewrite Hfields. cbv beta iota. rewrite He.
    destruct e; try discriminate He. reflexivity.
Qed.

Lemma zero_match_lookup_failure_is_dropped_witness :
  Fixture.run Fixture.lookup_fails
    (TGetProjectItems "acme" 7 50 None (Some "Status") (Some "Done") None)
  = (Ok ("No items found in project #7 for acme (Filter: Status = 'Done')"
         ++ nl ++ nl
         ++ "Note: If the project has many items, try increasing the limit parameter to search more thoroughly."),
     2%nat,
     [ items_returned "acme" 7 50 None (Some "Status") (Some "Done") None;
       fields_looked_up "acme" 7
         (Some (GitHubClientError "API rate limit exceeded")) ])
  /\
  Fixture.run Fixture.lookup_cancelled
    (TGetProjectItems "acme" 7 50 None (Some "Status") (Some "Done") None)
  = (Raise (BaseExceptionOnly "CancelledError"), 2%nat,
     [ items_returned "acme" 7 50 None (Some "Status") (Some "Done") None;
       fields_looked_up "acme" 7
         (Some (BaseExceptionOnly "CancelledError")) ]).
Proof.
  split.
  - apply (zero_match_lookup_failure_is_dropped (B := Fixture.builtins)
             (Fixture.scripted Fixture.lookup_fails) "acme" 7 50 None None
             "Status" "Done" 0%nat 1%nat 2%nat Fixture.empty_page
             (GitHubClientError "API rate limit exceeded")); reflexivity.
  - apply (zero_match_lookup_failure_is_dropped (B := Fixture.builtins)
             (Fixture.scripted Fixture.lookup_cancelled) "acme" 7 50 None
             None "Status" "Done" 0%nat 1%nat 2%nat Fixture.empty_page
             (BaseExceptionOnly "CancelledError")); reflexivity.
Defined.

(** X12.  Names that are equal after lowering select the same field:
    the lookup cannot tell them apart. *)
Theorem find_field_ignores_case
    {B : PyBuiltins} (fields : list (string * FieldDetails))
    (name other : string) :
  str_lower name = str_lower other ->
  find_field fields name = find_field fields other.
Proof.
  intros Hsame. induction fields as [|[fname finfo] rest IH]; simpl.
  - reflexivity.
  - rewrite Hsame, IH. reflexivity.
Qed.

Lemma find_field_ignores_case_witness :
  find_field (B := Fixture.builtins)
    [("Priority", Fixture.text_field);
     ("status", Fixture.single_select [("Todo", "o1")])] "STATUS"
  = find_field (B := Fixture.builtins)
      [("Priority", Fixture.text_field);
       ("status", Fixture.single_select [("Todo", "o1")])] "Status".
Proof.
  apply (find_field_ignores_case (B := Fixture.builtins)). reflexivity.
Defined.

(** *** The composed tools, step by step *)

(** X13.  When [create_issue] raises, [create_issue_and_add_to_project]
    stops there: neither the add nor the date call is attempted.  A client
    error becomes the error text; any other exception leaves the tool. *)
Theorem create_issue_and_add_create_failure_aborts
    {W : Type} (cl : Client.t W)
    (owner repo : string) (project_number : Z) (title body : string)
    (assignees : option (list string)) (start_date end_date : option string)
    (start_field_name end_field_name : string)
    (w w1 : W) (e : exn) :
  Client.create_issue cl owner repo title body assignees w = (Raise e, w1) ->
  create_issue_and_add_to_project cl owner repo project_number title body
    assignees start_date end_date start_field_name end_field_name w
  = (if is_client_error e
     then Ok ("Error: Could not create/add issue or set dates. Details: "
              ++ exn_msg e)
     else Raise e,
     w1,
     [ {| ev_call := CCreateIssue owner repo title body assignees;
          ev_raised := Some e |} ]).
Proof.
  intros Hcreate.
  unfold create_issue_and_add_to_project, try_except, bind, await.
  rewrite Hcreate. cbv beta iota.
  destruct (is_client_error e); reflexivity.
Qed.

Lemma create_issue_and_add_create_failure_aborts_witness :
  Fixture.run Fixture.create_fails
    (TCreateIssueAndAddToProject "acme" "web" 7 "Fix login" EmptyString
       None (Some "2025-01-01") None "Start Date" "End Date")
  = (Ok "Error: Could not create/add issue or set dates. Details: Repository not found",
     1%nat,
     [ {| ev_call := CCreateIssue "acme" "web" "Fix login" EmptyString None;
          ev_raised := Some (GitHubClientError "Repository not found") |} ]).
Proof.
  apply (create_issue_and_add_create_failure_aborts
           (Fixture.scripted Fixture.create_fails) "acme" "web" 7 "Fix login"
           EmptyString None (Some "2025-01-01") None "Start Date" "End Date"
           0%nat 1%nat (GitHubClientError "Repository not found")).
  reflexivity.
Defined.

(** X14.  On its full path [create_issue_and_add_to_project] chains the
    results: the add call gets the number of the issue just created and
    the issue's own owner and repository, the date call gets the id of the
    item just added, and the text names the issue's number, title, URL and
    the item id, followed by the dates that were set or, when the client
    updated none, by a warning. *)
Theorem create_issue_and_add_chains_results
    {W : Type} (cl : Client.t W)
    (owner repo : string) (project_number : Z) (title body : string)
    (assignees : option (list string)) (start_date end_date : option string)
    (start_field_name end_field_name : string)
    (w w1 w2 w3 : W) (issue : Issue) (item : ProjectItem) (item_id : string)
    (updates : list (string * string)) :
  Client.create_issue cl owner repo title body assignees w = (Ok issue, w1) ->
  Client.add_issue_to_project cl owner project_number owner repo
    (iss_number issue) w1 = (Ok item, w2) ->
  pi_id item = Some item_id ->
  truthy_str item_id = true ->
  truthy start_date || truthy end_date = true ->
  Client.set_project_item_dates cl owner project_number item_id
    start_date end_date start_field_name end_field_name w2
  = (Ok updates, w3) ->
  create_issue_and_add_to_project cl owner repo project_number title body
    assignees start_date end_date start_field_name end_field_name w
  = (Ok ("Issue created and added to project successfully!" ++ nl ++ nl
         ++ "Repository: " ++ owner ++ "/" ++ repo ++ nl
         ++ "Issue Number: #" ++ fmt_opt_int (iss_number issue) ++ nl
         ++ "Title: " ++ fmt_opt (iss_title issue) ++ nl
         ++ "URL: " ++ fmt_opt (iss_url issue) ++ nl
         ++ "Project Item ID: " ++ item_id
         ++ (if nonempty updates
             then nl ++ "Dates set:" ++ nl ++ date_lines updates
             else nl ++ "Warning: No date fields updated (fields may not exist).")
         ++ nl ++ assignees_info_of assignees issue),
     w3,
     [ {| ev_call := CCreateIssue owner repo title body assignees;
          ev_raised := None |};
       {| ev_call := CAddIssueToProject owner project_number owner repo
                       (iss_number issue);
          ev_raised := None |};
       {| ev_call := CSetProjectItemDates owner project_number item_id
                       start_date end_date start_field_name end_field_name;
          ev_raised := None |} ]).
Proof.
  intros Hcreate Hadd Hid Htruthy Hdates Hset.
  unfold create_issue_and_add_to_project, set_dates_step,
    try_except, bind, await.
  rewrite Hcreate. cbv beta iota. rewrite Hadd. cbv beta iota zeta.
  rewrite Hid.
  change (truthy (Some item_id)) with (truthy_str item_id).
  change (fmt_opt (Some item_id)) with item_id.
  rewrite Htruthy, Hdates. cbn [andb]. cbv beta iota.
  rewrite Hset. cbv beta iota.
  destruct (nonempty updates); unfold ret; cbv beta iota;
    normalize_text; reflexivity.
Qed.

Lemma create_issue_and_add_chains_results_witness :
  Fixture.run Fixture.healthy
    (TCreateIssueAndAddToProject "acme" "web" 7 "Fix login" EmptyString
       None (Some "2025-01-01") None "Start Date" "End Date")
  = (Ok ("Issue created and added to project successfully!" ++ nl ++ nl
         ++ "Repository: acme/web" ++ nl
         ++ "Issue Number: #42" ++ nl
         ++ "Title: Fix login" ++ nl
         ++ "URL: https://github.com/acme/web/issues/42" ++ nl
         ++ "Project Item ID: PVTI_abc" ++ nl
         ++ "Dates set:" ++ nl
         ++ "  - Start Date: 2025-01-01" ++ nl),
     3%nat,
     [ {| ev_call := CCreateIssue "acme" "web" "Fix login" EmptyString None;
          ev_raised := None |};
       {| ev_call := CAddIssueToProject "acme" 7 "acme" "web" (Some 42%Z);
          ev_raised := None |};
       {| ev_call := CSetProjectItemDates "acme" 7 "PVTI_abc"
                       (Some "2025-01-01") None "Start Date" "End Date";
          ev_raised := None |} ]).
Proof.
  apply (create_issue_and_add_chains_results
           (Fixture.scripted Fixture.healthy) "acme" "web" 7 "Fix login"
           EmptyString None (Some "2025-01-01") None "Start Date" "End Date"
           0%nat 1%nat 2%nat 3%nat Fixture.issue_42 Fixture.new_item
           "PVTI_abc" [("Start Date", "2025-01-01")]);
    reflexivity.
Defined.

(** X15.  When the date call of [create_issue_and_add_to_project] raises a
    client or validation error, the tool still answers with its success
    text: the issue's number, title and URL and the item id are all there,
    followed by a warning with the error's message. *)
Theorem create_issue_and_add_date_failure_is_warning
    {W : Type} (cl : Client.t W)
    (owner repo : string) (project_number : Z) (title body : string)
    (assignees : option (list string)) (start_date end_date : option string)
    (start_field_name end_field_name : string)
    (w w1 w2 w3 : W) (issue : Issue) (item : ProjectItem) (item_id : string)
    (e : exn) :
  Client.create_issue cl owner repo title body assignees w = (Ok issue, w1) ->
  Client.add_issue_to_project cl owner project_number owner repo
    (iss_number issue) w1 = (Ok item, w2) ->
  pi_id item = Some item_id ->
  truthy_str item_id = true ->
  truthy start_date || truthy end_date = true ->
  Client.set_project_item_dates cl owner project_number item_id
    start_date end_date start_field_name end_field_name w2
  = (Raise e, w3) ->
  is_client_or_value_error e = true ->
  create_issue_and_add_to_project cl owner repo project_number title body
    assignees start_date end_date start_field_name end_field_name w
  = (Ok ("Issue created and added to project successfully!" ++ nl ++ nl
         ++ "Repository: " ++ owner ++ "/" ++ repo ++ nl
         ++ "Issue Number: #" ++ fmt_opt_int (iss_number issue) ++ nl
         ++ "Title: " ++ fmt_opt (iss_title issue) ++ nl
         ++ "URL: " ++ fmt_opt (iss_url issue) ++ nl
         ++ "Project Item ID: " ++ item_id ++ nl
         ++ "Warning: Issue created and added but failed to set dates: "
         ++ exn_msg e
         ++ nl ++ assignees_info_of assignees issue),
     w3,
     [ {| ev_call := CCreateIssue owner repo title body assignees;
          ev_raised := None |};
       {| ev_call := CAddIssueToProject owner project_number owner repo
                       (iss_number issue);
          ev_raised := None |};
       {| ev_call := CSetProjectItemDates owner project_number item_id
                       start_date end_date start_field_name end_field_name;
          ev_raised := Some e |} ]).
Proof.
  intros Hcreate Hadd Hid Htruthy Hdates Hset Hclass.
  unfold create_issue_and_add_to_project, set_dates_step,
    try_except, bind, await.
  rewrite Hcreate. cbv beta iota. rewrite Hadd. cbv beta iota zeta.
  rewrite Hid.
  change (truthy (Some item_id)) with (truthy_str item_id).
  change (fmt_opt (Some item_id)) with item_id.
  rewrite Htruthy, Hdates. cbn [andb]. cbv beta iota.
  rewrite Hset. cbv beta iota. rewrite Hclass.
  unfold ret; cbv beta iota. normalize_text. reflexivity.
Qed.

Lemma create_issue_and_add_date_failure_is_warning_witness :
  Fixture.run Fixture.dates_fail
    (TCreateIssueAndAddToProject "acme" "web" 7 "Fix login" EmptyString
       None (Some "2025-01-01") None "Start Date" "End Date")
  = (Ok ("Issue created and added to project successfully!" ++ nl ++ nl
         ++ "Repository: acme/web" ++ nl
         ++ "Issue Number: #42" ++ nl
         ++ "Title: Fix login" ++ nl
         ++ "URL: https://github.com/acme/web/issues/42" ++ nl
         ++ "Project Item ID: PVTI_abc" ++ nl
         ++ "Warning: Issue created and added but failed to set dates: Field 'Start Date' is not a date field"
         ++ nl),
     3%nat,
     [ {| ev_call := CCreateIssue "acme" "web" "Fix login" EmptyString None;
          ev_raised := None |};
       {| ev_call := CAddIssueToProject "acme" 7 "acme" "web" (Some 42%Z);
          ev_raised := None |};
       {| ev_call := CSetProjectItemDates "acme" 7 "PVTI_abc"
                       (Some "2025-01-01") None "Start Date" "End Date";
          ev_raised := Some (GitHubClientError
            "Field 'Start Date' is not a date field") |} ]).
Proof.
  apply (create_issue_and_add_date_failure_is_warning
           (Fixture.scripted Fixture.dates_fail) "acme" "web" 7 "Fix login"
           EmptyString None (Some "2025-01-01") None "Start Date" "End Date"
           0%nat 1%nat 2%nat 3%nat Fixture.issue_42 Fixture.new_item
           "PVTI_abc"
           (GitHubClientError "Field 'Start Date' is not a date field"));
    reflexivity.
Defined.

(** X16.  [add_issue_to_project_with_dates] skips the date step when no
    date was given or when the added item came back without an id: the
    add is the only client call and the text is the plain success text,
    with [None] for a missing id.  Dates asked for an item without id are
    dropped without a warning. *)
Theorem add_issue_to_project_with_dates_skips_date_step
    {W : Type} (cl : Client.t W)
    (owner : string) (project_number : Z) (issue_owner issue_repo : string)
    (issue_number : Z) (start_date end_date : option string)
    (start_field_name end_field_name : string) (w w1 : W)
    (item : ProjectItem) :
  Client.add_issue_to_project cl owner project_number issue_owner
    issue_repo (Some issue_number) w = (Ok item, w1) ->
  truthy (pi_id item) && (truthy start_date || truthy end_date) = false ->
  add_issue_to_project_with_dates cl owner project_number issue_owner
    issue_repo issue_number start_date end_date start_field_name
    end_field_name w
  = (Ok ("Successfully added issue " ++ issue_owner ++ "/" ++ issue_repo
         ++ "#" ++ str_int issue_number ++ " to project #"
         ++ str_int project_number ++ "!" ++ nl
         ++ "Item ID: " ++ fmt_opt (pi_id item)),
     w1,
     [ {| ev_call := CAddIssueToProject owner project_number issue_owner
                       issue_repo (Some issue_number);
          ev_raised := None |} ]).
Proof.
  intros Hadd Hskip.
  unfold add_issue_to_project_with_dates, set_dates_step,
    try_except, bind, await.
  rewrite Hadd. cbv beta iota zeta. rewrite Hskip.
  unfold ret. cbv beta iota. normalize_text. reflexivity.
Qed.

Lemma add_issue_to_project_with_dates_skips_date_step_witness :
  Fixture.run Fixture.added_without_id
    (TAddIssueToProjectWithDates "acme" 7 "acme" "web" 42
       (Some "2025-01-01") (Some "2025-01-31") "Start Date" "End Date")
  = (Ok ("Successfully added issue acme/web#42 to project #7!" ++ nl
         ++ "Item ID: None"),
     1%nat,
     [ {| ev_call := CAddIssueToProject "acme" 7 "acme" "web" (Some 42%Z);
          ev_raised := None |} ]).
Proof.
  apply (add_issue_to_project_with_dates_skips_date_step
           (Fixture.scripted Fixture.added_without_id) "acme" 7 "acme" "web"
           42 (Some "2025-01-01") (Some "2025-01-31") "Start Date" "End Date"
           0%nat 1%nat {| pi_id := None |});
    reflexivity.
Defined.

(** X17.  [add_issue_to_project] subscripts the id of the added item:
    when the client's answer has none, the tool raises [KeyError] after
    the issue was added, where the composed tools print [None]. *)
Theorem add_issue_to_project_needs_item_id
    {W : Type} (cl : Client.t W)
    (owner : string) (project_number : Z) (issue_owner issue_repo : string)
    (issue_number : Z) (w w1 : W) (item : ProjectItem) :
  Client.add_issue_to_project cl owner project_number issue_owner
    issue_repo (Some issue_number) w = (Ok item, w1) ->
  add_issue_to_project cl owner project_number issue_owner issue_repo
    issue_number w
  = (match pi_id item with
     | Some id =>
         Ok ("Successfully added issue " ++ issue_owner ++ "/" ++ issue_repo
             ++ "#" ++ str_int issue_number ++ " to project #"
             ++ str_int project_number ++ "!" ++ nl
             ++ "Item ID: " ++ id)
     | None => Raise (OtherException "'id'")
     end,
     w1,
     [ {| ev_call := CAddIssueToProject owner project_number issue_owner
                       issue_repo (Some issue_number);
          ev_raised := None |} ]).
Proof.
  intros Hadd.
  unfold add_issue_to_project, try_except, bind, await, getitem.
  rewrite Hadd. cbv beta iota.
  destruct (pi_id item); reflexivity.
Qed.

Lemma add_issue_to_project_needs_item_id_witness :
  Fixture.run Fixture.added_without_id
    (TAddIssueToProject "acme" 7 "acme" "web" 42)
  = (Raise (OtherException "'id'"), 1%nat,
     [ {| ev_call := CAddIssueToProject "acme" 7 "acme" "web" (Some 42%Z);
          ev_raised := None |} ]).
Proof.
  apply (add_issue_to_project_needs_item_id
           (Fixture.scripted Fixture.added_without_id) "acme" 7 "acme" "web"
           42 0%nat 1%nat {| pi_id := None |}).
  reflexivity.
Defined.

(** X18.  [create_issue] subscripts [number], [title] and [url] of the
    created issue, in this order: the first one missing raises its
    [KeyError] after the issue was created.  With all three present the
    text names them, and lists assignees only when assignees were asked
    for and the issue has some. *)
Theorem create_issue_needs_number_title_url
    {W : Type} (cl : Client.t W)
    (owner repo title body : string) (assignees : option (list string))
    (w w1 : W) (issue : Issue) :
  Client.create_issue cl owner repo title body assignees w = (Ok issue, w1) ->
  create_issue cl owner repo title body assignees w
  = (match iss_number issue, iss_title issue, iss_url issue with
     | None, _, _ => Raise (OtherException "'number'")
     | Some _, None, _ => Raise (OtherException "'title'")
     | Some _, Some _, None => Raise (OtherException "'url'")
     | Some number, Some issue_title, Some url =>
         Ok ("Issue created successfully!" ++ nl ++ nl
             ++ "Repository: " ++ owner ++ "/" ++ repo ++ nl
             ++ "Issue Number: #" ++ str_int number ++ nl
             ++ "Title: " ++ issue_title ++ nl
             ++ (if truthy_list assignees
                    && truthy_list (iss_assignees issue)
                 then "Assignees: "
                      ++ join ", " (get_default (iss_assignees issue) [])
                      ++ nl
                 else EmptyString)
             ++ "URL: " ++ url ++ nl)
     end,
     w1,
     [ {| ev_call := CCreateIssue owner repo title body assignees;
          ev_raised := None |} ]).
Proof.
  intros Hcreate.
  unfold create_issue, assignees_info_of, try_except, bind, await, getitem.
  rewrite Hcreate. cbv beta iota zeta.
  destruct (iss_number issue); [|reflexivity].
  destruct (iss_title issue); [|reflexivity].
  destruct (iss_url issue); reflexivity.
Qed.

Lemma create_issue_needs_number_title_url_witness :
  Fixture.run Fixture.issue_without_url
    (TCreateIssue "acme" "web" "Fix login" EmptyString (Some ["octocat"]))
  = (Raise (OtherException "'url'"), 1%nat,
     [ {| ev_call := CCreateIssue "acme" "web" "Fix login" EmptyString
                       (Some ["octocat"]);
          ev_raised := None |} ]).
Proof.
  apply (create_issue_needs_number_title_url
           (Fixture.scripted Fixture.issue_without_url) "acme" "web"
           "Fix login" EmptyString (Some ["octocat"]) 0%nat 1%nat
           {| iss_number := Some 42%Z; iss_title := Some "Fix login";
              iss_url := None; iss_assignees := Some ["octocat"] |}).
  reflexivity.
Defined.

(** X19.  When a date was given and the client updated no field (the
    named date fields are not on the project), [set_project_item_dates]
    answers with a plain notice, not with an error; otherwise it lists one
    line per updated field. *)
Theorem set_project_item_dates_reports_updates
    {W : Type} (cl : Client.t W)
    (owner : string) (project_number : Z) (item_id : string)
    (start_date end_date : option string)
    (start_field_name end_field_name : string) (w w1 : W)
    (updates : list (string * string)) :
  truthy start_date || truthy end_date = true ->
  Client.set_project_item_dates cl owner project_number item_id start_date
    end_date start_field_name end_field_name w = (Ok updates, w1) ->
  set_project_item_dates cl owner project_number item_id start_date end_date
    start_field_name end_field_name w
  = (Ok (match updates with
         | [] => "No date fields were updated (fields may be missing)."
         | _ :: _ =>
             "Successfully updated date fields for item " ++ item_id
             ++ " in project #" ++ str_int project_number ++ ":" ++ nl
             ++ join nl (map (fun kv => "  - " ++ fst kv ++ ": " ++ snd kv)
                           updates)
         end),
     w1,
     [ {| ev_call := CSetProjectItemDates owner project_number item_id
                       start_date end_date start_field_name end_field_name;
          ev_raised := None |} ]).
Proof.
  intros Hdate Hset.
  unfold set_project_item_dates, try_except, bind, await.
  rewrite Hdate. cbn [negb]. cbv iota. rewrite Hset. cbv beta iota.
  destruct updates; reflexivity.
Qed.

Lemma set_project_item_dates_reports_updates_witness :
  Fixture.run Fixture.no_date_fields
    (TSetProjectItemDates "acme" 7 "PVTI_abc" (Some "2025-01-01") None
       "Start Date" "End Date")
  = (Ok "No date fields were updated (fields may be missing).", 1%nat,
     [ {| ev_call := CSetProjectItemDates "acme" 7 "PVTI_abc"
                       (Some "2025-01-01") None "Start Date" "End Date";
          ev_raised := None |} ]).
Proof.
  apply (set_project_item_dates_reports_updates
           (Fixture.scripted Fixture.no_date_fields) "acme" 7 "PVTI_abc"
           (Some "2025-01-01") None "Start Date" "End Date" 0%nat 1%nat []);
    reflexivity.
Defined.

(** *** The composed tool against the atomic one *)

(** X20.  Called without dates, [add_issue_to_project_with_dates] is
    [add_issue_to_project]: when the add succeeds and the item has an id,
    the two tools make the same call, leave the same world and return the
    same text. *)
Theorem add_with_dates_without_dates_is_add
    {W : Type} (cl : Client.t W)
    (owner : string) (project_number : Z) (issue_owner issue_repo : string)
    (issue_number : Z) (start_date end_date : option string)
    (start_field_name end_field_name : string) (w w1 : W)
    (item : ProjectItem) (item_id : string) :
  truthy start_date || truthy end_date = false ->
  Client.add_issue_to_project cl owner project_number issue_owner
    issue_repo (Some issue_number) w = (Ok item, w1) ->
  pi_id item = Some item_id ->
  add_issue_to_project_with_dates cl owner project_number issue_owner
    issue_repo issue_number start_date end_date start_field_name
    end_field_name w
  = add_issue_to_project cl owner project_number issue_owner issue_repo
      issue_number w.
Proof.
  intros Hdates Hadd Hid.
  unfold add_issue_to_project_with_dates, add_issue_to_project,
    set_dates_step, try_except, bind, await, getitem.
  rewrite Hadd. cbv beta iota zeta. rewrite Hid, Hdates.
  rewrite andb_false_r. unfold ret. cbv beta iota. cbn [fmt_opt].
  normalize_text. reflexivity.
Qed.

Lemma add_with_dates_without_dates_is_add_witness :
  Fixture.run Fixture.healthy
    (TAddIssueToProjectWithDates "acme" 7 "acme" "web" 42 None
       (Some EmptyString) "Start Date" "End Date")
  = Fixture.run Fixture.healthy (TAddIssueToProject "acme" 7 "acme" "web" 42).
Proof.
  apply (add_with_dates_without_dates_is_add
           (Fixture.scripted Fixture.healthy) "acme" 7 "acme" "web" 42 None
           (Some EmptyString) "Start Date" "End Date" 0%nat 1%nat
           Fixture.new_item "PVTI_abc");
    reflexivity.
Defined.
